(** * OEWS batch request: a shallow embedding of [examples/batch_request.py]

    The script is a linear pipeline: generate series identifiers, fetch them
    in batches, reconcile the returned series with the generated metadata,
    label the flat records and write them out.  Each stage is embedded below
    as a function over explicit state, in the order of the script. *)

From stdpp Require Import base list strings gmap.

(** ** Python values and exceptions *)

(** The exceptions the modelled stages can raise. *)
Inductive exn :=
  | ValueError (msg : string)
  | KeyError (key : string).

(** A computation either returns or raises. *)
Inductive result (A : Type) :=
  | Ok (a : A)
  | Raise (e : exn).
Arguments Ok {A} a.
Arguments Raise {A} e.

Global Instance result_ret : MRet result := λ A, Ok.
Global Instance result_bind : MBind result := λ A B k c,
  match c with
  | Ok a => k a
  | Raise e => Raise e
  end.

(** ** Series Identifier Generator (lines 24-49) *)

Definition industry_code : string := "000000".
Definition datatype_codes : list string := ["04"; "13"].

(** The dict appended to [series_metadata]. *)
Record Metadata := {
  series_id : string;
  state_code : string;
  occupation_code : string;
  datatype_code : string
}.

(** [itertools.product] of three iterables: the first one varies slowest. *)
Definition product {A B C} (xs : list A) (ys : list B) (zs : list C)
  : list (A * B * C) :=
  xs ≫= λ x, ys ≫= λ y, (λ z, (x, y, z)) <$> zs.

(** The f-string of line 41. *)
Definition make_series_id (state_code occ_code datatype : string) : string :=
  "OEUS" +:+ state_code +:+ industry_code +:+ occ_code +:+ datatype.

(** The two accumulators of the generation loop. *)
Record gen_state := {
  series_ids : list string;
  series_metadata : list Metadata
}.

(** One iteration of the loop body: both lists are appended to. *)
Definition gen_step (st : gen_state) (t : string * string * string)
  : gen_state :=
  let '(state_code, occ_code, datatype) := t in
  let series_id := make_series_id state_code occ_code datatype in
  {| series_ids := series_ids st ++ [series_id];
     series_metadata := series_metadata st ++
       [ {| series_id := series_id;
            state_code := state_code;
            occupation_code := occ_code;
            datatype_code := datatype |} ] |}.

Definition generate (state_codes occupation_codes datatype_codes : list string)
  : gen_state :=
  foldl gen_step {| series_ids := []; series_metadata := [] |}
    (product state_codes occupation_codes datatype_codes).

(** The metadata record built for one element of the product. *)
Definition metadata_of (t : string * string * string) : Metadata :=
  let '(state_code, occ_code, datatype) := t in
  {| series_id := make_series_id state_code occ_code datatype;
     state_code := state_code;
     occupation_code := occ_code;
     datatype_code := datatype |}.

(** ** Batch Fetcher (lines 53-86) *)

Definition BATCH_SIZE : nat := 50.

(** One observation of a returned series. *)
Record DataPoint := {
  period : string;
  year : string;
  value : string
}.

(** One entry of [data['Results']['series']]. *)
Record Series := {
  seriesID : string;
  data : list DataPoint
}.

(** What one pass through the [try] block amounts to, for a response that
    is a well-formed envelope: the series of a successful request, the
    message of a rejected one, or the caught [RequestException]. *)
Inductive outcome :=
  | RequestSucceeded (series : list Series)
  | ApiError (message : string)
  | RequestException (e : string).

(** The observable actions of the loop: a POST of one batch, and the
    [time.sleep(0.25)] of the rate limiter. *)
Inductive event :=
  | Post (batch : list string)
  | Sleep.

Record fetch_state := {
  all_results : list Series;
  trace : list event
}.

(** [l[i:j]] for [0 <= i <= j]: the slice is clipped to the list. *)
Definition slice {A} (l : list A) (i j : nat) : list A := take (j - i) (drop i l).

(** [range(start, stop, step)] for a positive step; no index reaches [stop],
    so [stop] iterations are always enough. *)
Fixpoint range_aux (fuel start stop step : nat) : list nat :=
  match fuel with
  | 0 => []
  | S fuel =>
      if decide (start < stop)
      then start :: range_aux fuel (start + step) stop step
      else []
  end.

Definition range (start stop step : nat) : list nat :=
  range_aux stop start stop step.

(** [(len(series_ids) + BATCH_SIZE - 1) // BATCH_SIZE] *)
Definition total_batches (ids : list string) : nat :=
  (length ids + BATCH_SIZE - 1) / BATCH_SIZE.

Section Fetch.
(** The retrieval collaborator: what the [try] block yields for the batch
    numbered [batch_num]. *)
Variable post : nat → list string → outcome.
Variable ids : list string.

Definition fetch_step (st : fetch_state) (i : nat) : fetch_state :=
  let batch_num := i / BATCH_SIZE + 1 in
  let batch := slice ids i (i + BATCH_SIZE) in
  let st := {| all_results := all_results st;
               trace := trace st ++ [Post batch] |} in
  let st :=
    match post batch_num batch with
    | RequestSucceeded series =>
        {| all_results := all_results st ++ series; trace := trace st |}
    | ApiError _ => st
    | RequestException _ => st
    end in
  if decide (i + BATCH_SIZE < length ids)
  then {| all_results := all_results st; trace := trace st ++ [Sleep] |}
  else st.

Definition fetch : fetch_state :=
  foldl fetch_step {| all_results := []; trace := [] |}
    (range 0 (length ids) BATCH_SIZE).
End Fetch.

(** The batches that were submitted, in order. *)
Definition submitted (tr : list event) : list (list string) :=
  tr ≫= λ e, match e with Post batch => [batch] | Sleep => [] end.

Definition is_sleep (e : event) : bool :=
  match e with
  | Sleep => true
  | Post _ => false
  end.

(** The number of delays observed. *)
Definition delays (tr : list event) : nat :=
  length (filter (λ e, is_sleep e) tr).

(** A separator between consecutive elements, none after the last. *)
Fixpoint intersperse {A} (sep : A) (l : list A) : list A :=
  match l with
  | [] => []
  | x :: l' =>
      match l' with
      | [] => [x]
      | _ :: _ => x :: sep :: intersperse sep l'
      end
  end.

(** Contiguous pieces of at most [BATCH_SIZE] elements. *)
Fixpoint chunks_aux (fuel : nat) (l : list string) : list (list string) :=
  match fuel with
  | 0 => []
  | S fuel =>
      match l with
      | [] => []
      | _ :: _ => take BATCH_SIZE l :: chunks_aux fuel (drop BATCH_SIZE l)
      end
  end.

(** The sizes of those pieces, from the length alone. *)
Fixpoint chunk_sizes (fuel n : nat) : list nat :=
  match fuel with
  | 0 => []
  | S fuel =>
      match n with
      | 0 => []
      | S _ => (BATCH_SIZE `min` n) :: chunk_sizes fuel (n - BATCH_SIZE)
      end
  end.

(** ** Result Reconciler (lines 90-112) *)

(** The reference document, as far as the labelling stage reads it: the
    three code-to-name dicts of lines 118-120, taken to be present. *)
Record Codes := {
  state_names : gmap string string;
  occupation_names : gmap string string;
  datatype_names : gmap string string
}.

Section Pipeline.
(** Python's floats and the builtin [float] applied to a string:
    [None] stands for the [ValueError] it raises on a string that is not
    a number. *)
Variable pyfloat : Type.
Variable float : string → option pyfloat.

(** The dict appended to [processed_data]; its keys are those of the dict
    literal of lines 105-112, [value] being a float or [None]. *)
Record FlatRecord := {
  row_series_id : string;
  row_state_code : string;
  row_occupation_code : string;
  row_datatype_code : string;
  row_year : string;
  row_value : option pyfloat
}.

(** [float(v) if v != '-' else None] *)
Definition parse_value (v : string) : result (option pyfloat) :=
  if decide (v ≠ "-") then
    match float v with
    | Some x => Ok (Some x)
    | None => Raise (ValueError v)
    end
  else Ok None.

(** [next((m for m in series_metadata if m['series_id'] == series_id), None)] *)
Definition find_metadata (md : list Metadata) (sid : string)
  : option Metadata :=
  snd <$> list_find (λ m, series_id m = sid) md.

(** The inner loop over [series['data']]: the body has no [break]. *)
Fixpoint for_data_points (sid : string) (metadata : Metadata)
    (points : list DataPoint) (processed_data : list FlatRecord)
  : result (list FlatRecord) :=
  match points with
  | [] => Ok processed_data
  | data_point :: points =>
      if decide (period data_point = "A01") then
        v ← parse_value (value data_point);
        for_data_points sid metadata points
          (processed_data ++
             [ {| row_series_id := sid;
                  row_state_code := state_code metadata;
                  row_occupation_code := occupation_code metadata;
                  row_datatype_code := datatype_code metadata;
                  row_year := year data_point;
                  row_value := v |} ])
      else for_data_points sid metadata points processed_data
  end.

(** The outer loop over [all_results]. *)
Fixpoint for_series (md : list Metadata) (results : list Series)
    (processed_data : list FlatRecord) : result (list FlatRecord) :=
  match results with
  | [] => Ok processed_data
  | series :: results =>
      match find_metadata md (seriesID series) with
      | None => for_series md results processed_data
      | Some metadata =>
          processed_data ←
            for_data_points (seriesID series) metadata (data series)
              processed_data;
          for_series md results processed_data
      end
  end.

Definition reconcile (md : list Metadata) (results : list Series)
  : result (list FlatRecord) :=
  for_series md results [].

(** ** Labelling and output (lines 114-139) *)

(** A cell of the frame: a string, a float, or missing ([None]/[NaN]). *)
Inductive cell :=
  | Str (s : string)
  | Num (x : pyfloat)
  | NaN.

(** A frame: the length of its index and its columns, in order. *)
Record DataFrame := {
  index_len : nat;
  columns : list (string * list cell)
}.

(** The items of the dict literal, in the order they are written. *)
Definition row_dict (r : FlatRecord) : list (string * cell) :=
  [ ("series_id", Str (row_series_id r));
    ("state_code", Str (row_state_code r));
    ("occupation_code", Str (row_occupation_code r));
    ("datatype_code", Str (row_datatype_code r));
    ("year", Str (row_year r));
    ("value", match row_value r with Some x => Num x | None => NaN end) ].

Definition dict_get (k : string) (d : list (string * cell)) : cell :=
  match list_find (λ kv, kv.1 = k) d with
  | Some (_, (_, v)) => v
  | None => NaN
  end.

(** [pd.DataFrame(records)] for a list of dicts that all carry the keys of
    the first one: one column per key, one row per dict; no column at all
    for the empty list. *)
Definition mkDataFrame (records : list (list (string * cell))) : DataFrame :=
  let keys := match records with [] => [] | d :: _ => d.*1 end in
  {| index_len := length records;
     columns := (λ k, (k, dict_get k <$> records)) <$> keys |}.

(** [df[c]]: a missing column raises [KeyError]. *)
Definition getitem (df : DataFrame) (c : string) : result (list cell) :=
  match list_find (λ kv, kv.1 = c) (columns df) with
  | Some (_, (_, col)) => Ok col
  | None => Raise (KeyError c)
  end.

(** [df[c] = col]: an existing column is replaced in place, a new one is
    added last. *)
Definition setitem (df : DataFrame) (c : string) (col : list cell)
  : DataFrame :=
  {| index_len := index_len df;
     columns :=
       match list_find (λ kv, kv.1 = c) (columns df) with
       | Some (i, _) => <[i := (c, col)]> (columns df)
       | None => columns df ++ [(c, col)]
       end |}.

(** [col.map(names)]: a value that is not a key of the dict maps to
    missing. *)
Definition series_map (names : gmap string string) (col : list cell)
  : list cell :=
  (λ v, match v with
        | Str s => match names !! s with Some n => Str n | None => NaN end
        | Num _ => NaN
        | NaN => NaN
        end) <$> col.

(** Lines 122-124. *)
Definition label (codes : Codes) (df : DataFrame) : result DataFrame :=
  c ← getitem df "state_code";
  let df := setitem df "state_name" (series_map (state_names codes) c) in
  c ← getitem df "occupation_code";
  let df := setitem df "occupation_name"
              (series_map (occupation_names codes) c) in
  c ← getitem df "datatype_code";
  let df := setitem df "datatype_name"
              (series_map (datatype_names codes) c) in
  Ok df.

(** What [to_csv(..., index=False)] writes: the header line and one line
    per index entry, a cell per column. *)
Record CsvFile := {
  header : list string;
  lines : list (list cell)
}.

Definition to_csv (df : DataFrame) : CsvFile :=
  {| header := (columns df).*1;
     lines := (λ i, (λ c, default NaN (c.2 !! i)) <$> columns df)
                <$> seq 0 (index_len df) |}.

(** Everything after the batching stage.  The wide table of lines
    127-132 is only printed and [df] itself is what is written; the
    [pivot_table] call is left out here, so an [Ok] stands for the file of
    a run in which that call returned. *)
Definition process (codes : Codes) (md : list Metadata)
    (results : list Series) : result CsvFile :=
  processed_data ← reconcile md results;
  let df := mkDataFrame (row_dict <$> processed_data) in
  df ← label codes df;
  Ok (to_csv df).

(** The whole script, from the code lists on: [state_codes] and
    [occupation_codes] are the key lists of lines 25-26. *)
Definition main (codes : Codes) (state_codes occupation_codes : list string)
    (post : nat → list string → outcome) : result CsvFile :=
  let gen := generate state_codes occupation_codes datatype_codes in
  let st := fetch post (series_ids gen) in
  process codes (series_metadata gen) (all_results st).
End Pipeline.

Arguments row_series_id {pyfloat} _.
Arguments row_state_code {pyfloat} _.
Arguments row_occupation_code {pyfloat} _.
Arguments row_datatype_code {pyfloat} _.
Arguments row_year {pyfloat} _.
Arguments row_value {pyfloat} _.
Arguments Build_FlatRecord {pyfloat} _ _ _ _ _ _.
Arguments parse_value {pyfloat} float v.
Arguments for_data_points {pyfloat} float sid metadata points processed_data.
Arguments for_series {pyfloat} float md results processed_data.
Arguments reconcile {pyfloat} float md results.
Arguments Str {pyfloat} s.
Arguments Num {pyfloat} x.
Arguments NaN {pyfloat}.
Arguments index_len {pyfloat} _.
Arguments columns {pyfloat} _.
Arguments Build_DataFrame {pyfloat} _ _.
Arguments row_dict {pyfloat} r.
Arguments dict_get {pyfloat} k d.
Arguments mkDataFrame {pyfloat} records.
Arguments getitem {pyfloat} df c.
Arguments setitem {pyfloat} df c col.
Arguments series_map {pyfloat} names col.
Arguments label {pyfloat} codes df.
Arguments header {pyfloat} _.
Arguments lines {pyfloat} _.
Arguments Build_CsvFile {pyfloat} _ _.
Arguments to_csv {pyfloat} df.
Arguments process {pyfloat} float codes md results.
Arguments main {pyfloat} float codes state_codes occupation_codes post.

(** ** The loops without their accumulators

    The functions below say what the reconciliation loops contribute, as
    lists; the loops are related to them in the second half of the file. *)

(** Running [f] over a list, stopping at the first exception. *)
Fixpoint collect {A B} (f : A → result B) (l : list A) : result (list B) :=
  match l with
  | [] => Ok []
  | x :: l => y ← f x; ys ← collect f l; Ok (y :: ys)
  end.

(** The observations the inner loop acts on. *)
Definition annual (points : list DataPoint) : list DataPoint :=
  filter (λ p, period p = "A01") points.

Section Rows.
Context {pyfloat : Type}.
Variable float : string → option pyfloat.

(** The record appended for one annual observation. *)
Definition point_row (sid : string) (metadata : Metadata) (p : DataPoint)
  : result (FlatRecord pyfloat) :=
  v ← parse_value float (value p);
  Ok {| row_series_id := sid;
        row_state_code := state_code metadata;
        row_occupation_code := occupation_code metadata;
        row_datatype_code := datatype_code metadata;
        row_year := year p;
        row_value := v |}.

(** The records one returned series contributes. *)
Definition series_rows (md : list Metadata) (series : Series)
  : result (list (FlatRecord pyfloat)) :=
  match find_metadata md (seriesID series) with
  | None => Ok []
  | Some metadata =>
      collect (point_row (seriesID series) metadata) (annual (data series))
  end.
End Rows.

(** The name a code maps to, as a cell. *)
Definition name_cell {pyfloat} (names : gmap string string) (code : string)
  : cell pyfloat :=
  match names !! code with
  | Some n => Str n
  | None => NaN
  end.

(** The line of the output file for one flat record. *)
Definition csv_line {pyfloat} (codes : Codes) (r : FlatRecord pyfloat)
  : list (cell pyfloat) :=
  [ Str (row_series_id r);
    Str (row_state_code r);
    Str (row_occupation_code r);
    Str (row_datatype_code r);
    Str (row_year r);
    match row_value r with Some x => Num x | None => NaN end;
    name_cell (state_names codes) (row_state_code r);
    name_cell (occupation_names codes) (row_occupation_code r);
    name_cell (datatype_names codes) (row_datatype_code r) ].

(** ** Concrete inputs *)

(** A reading of unsigned decimal integer literals, which [float] accepts:
    it is used to run the stages on concrete inputs. *)
Fixpoint digits_value (acc : N) (s : string) : option N :=
  match s with
  | EmptyString => Some acc
  | String c s =>
      let n := Ascii.N_of_ascii c in
      if ((48 <=? n) && (n <=? 57))%N
      then digits_value (10 * acc + (n - 48))%N s
      else None
  end.

Definition float_of_digits (s : string) : option N :=
  match s with
  | EmptyString => None
  | String _ _ => digits_value 0%N s
  end.

(** The catalog entries and generated metadata of a one-state,
    one-occupation run. *)
Definition sample_codes : Codes :=
  {| state_names := {[ "06" := "California" ]};
     occupation_names := {[ "11-0000" := "Management Occupations" ]};
     datatype_names :=
       {[ "04" := "Annual mean wage"; "13" := "Annual median wage" ]} |}.

Definition sample_metadata : list Metadata :=
  series_metadata (generate ["06"] ["11-0000"] datatype_codes).

(** A returned series with two annual observations. *)
Definition two_annual_series : Series :=
  {| seriesID := "OEUS0600000011-000004";
     data := [ {| period := "A01"; year := "2023"; value := "52000" |};
               {| period := "A01"; year := "2022"; value := "50000" |} ] |}.

(** A returned series whose only observation carries the sentinel. *)
Definition sentinel_point : DataPoint :=
  {| period := "A01"; year := "2023"; value := "-" |}.

Definition sentinel_series : Series :=
  {| seriesID := "OEUS0600000011-000004"; data := [sentinel_point] |}.

(** A returned series whose value is neither the sentinel nor a number. *)
Definition malformed_series : Series :=
  {| seriesID := "OEUS0600000011-000013";
     data := [ {| period := "A01"; year := "2023"; value := "N/A" |} ] |}.

(** A returned series that was never generated. *)
Definition unknown_series : Series :=
  {| seriesID := "OEUS4800000011-000004";
     data := [ {| period := "A01"; year := "2023"; value := "61000" |} ] |}.

(** Code lists without repetition whose concatenations collide: occupation
    "1" with measure type "13" and occupation "11" with measure type "3". *)
Definition colliding_occupations : list string := ["1"; "11"].
Definition colliding_datatypes : list string := ["13"; "3"].

Definition colliding_series : Series :=
  {| seriesID := "OEUS06000000113";
     data := [ {| period := "A01"; year := "2023"; value := "70000" |} ] |}.

(** A collaborator that answers every batch with the sentinel series, one
    whose requests all fail, and one that returns the malformed series. *)
Definition sample_post (batch_num : nat) (batch : list string) : outcome :=
  RequestSucceeded [sentinel_series].

Definition failing_post (batch_num : nat) (batch : list string) : outcome :=
  RequestException "Read timed out".

Definition malformed_post (batch_num : nat) (batch : list string) : outcome :=
  RequestSucceeded [malformed_series].

(** The file written for [sample_post]. *)
Definition sample_csv : CsvFile N :=
  {| header :=
       ["series_id"; "state_code"; "occupation_code"; "datatype_code";
        "year"; "value"; "state_name"; "occupation_name"; "datatype_name"];
     lines :=
       [ [ Str "OEUS0600000011-000004"; Str "06"; Str "11-0000"; Str "04";
           Str "2023"; NaN; Str "California"; Str "Management Occupations";
           Str "Annual mean wage" ] ] |}.

(** ** Further views of the stages *)

(** The series one pass through the [try] block adds to [all_results]. *)
Definition series_of (o : outcome) : list Series :=
  match o with
  | RequestSucceeded series => series
  | ApiError _ => []
  | RequestException _ => []
  end.

(** A returned series without the observations the inner loop passes over. *)
Definition only_annual (s : Series) : Series :=
  {| seriesID := seriesID s; data := annual (data s) |}.

(** The number of observations the two loops append a record for. *)
Definition selected_count (md : list Metadata) (results : list Series) : nat :=
  sum_list
    ((λ s, match find_metadata md (seriesID s) with
           | Some _ => length (annual (data s))
           | None => 0
           end) <$> results).

(** A catalog without the state "06", and the line written under it for
    the sentinel series. *)
Definition unmapped_codes : Codes :=
  {| state_names := {[ "48" := "Texas" ]};
     occupation_names := {[ "11-0000" := "Management Occupations" ]};
     datatype_names :=
       {[ "04" := "Annual mean wage"; "13" := "Annual median wage" ]} |}.

Definition lines_unmapped_sample : list (cell N) :=
  [ Str "OEUS0600000011-000004"; Str "06"; Str "11-0000"; Str "04";
    Str "2023"; NaN; NaN; Str "Management Occupations";
    Str "Annual mean wage" ].
(** * Properties *)

(** ** Series Identifier Generator *)

(** *** The loop as two maps over the product *)

Lemma foldl_gen_step ts st :
  foldl gen_step st ts =
  {| series_ids := series_ids st ++ (series_id ∘ metadata_of <$> ts);
     series_metadata := series_metadata st ++ (metadata_of <$> ts) |}.
Proof.
  revert st. induction ts as [|[[g o] d] ts IH]; intros st.
  - destruct st; simpl. by rewrite !app_nil_r.
  - simpl. rewrite IH. simpl. by rewrite <- !app_assoc.
Qed.

Lemma generate_series_ids G O D :
  series_ids (generate G O D) = series_id ∘ metadata_of <$> product G O D.
Proof. unfold generate. by rewrite foldl_gen_step. Qed.

Lemma generate_series_metadata G O D :
  series_metadata (generate G O D) = metadata_of <$> product G O D.
Proof. unfold generate. by rewrite foldl_gen_step. Qed.

(** *** Size and indexing of the product *)

Lemma length_bind_uniform {A B} (f : A → list B) n (l : list A) :
  (∀ y, y ∈ l → length (f y) = n) → length (l ≫= f) = length l * n.
Proof.
  induction l as [|a l IH]; intros Hn; [done|].
  rewrite bind_cons, length_app, Hn, IH; [simpl; lia | | left].
  intros y Hy. apply Hn. by right.
Qed.

Lemma lookup_bind_uniform {A B} (f : A → list B) n (l : list A) i r x :
  (∀ y, y ∈ l → length (f y) = n) →
  l !! i = Some x → r < n →
  (l ≫= f) !! (i * n + r) = f x !! r.
Proof.
  revert i. induction l as [|a l IH]; intros i Hn Hi Hr; [done|].
  rewrite bind_cons. destruct i as [|i]; simpl in Hi.
  - injection Hi as ->. simpl. apply lookup_app_l. rewrite Hn; [done | left].
  - rewrite lookup_app_r by (rewrite Hn; [simpl; lia | left]).
    rewrite Hn by left.
    replace (S i * n + r - n) with (i * n + r) by (simpl; lia).
    apply IH; [|done..]. intros y Hy. apply Hn. by right.
Qed.

Lemma length_product {A B C} (xs : list A) (ys : list B) (zs : list C) :
  length (product xs ys zs) = length xs * length ys * length zs.
Proof.
  unfold product.
  rewrite (length_bind_uniform _ (length ys * length zs)); [lia|].
  intros x _. apply length_bind_uniform. intros y _. by rewrite length_fmap.
Qed.

Lemma lookup_product {A B C} (xs : list A) (ys : list B) (zs : list C)
    i j k x y z :
  xs !! i = Some x → ys !! j = Some y → zs !! k = Some z →
  product xs ys zs !! ((i * length ys + j) * length zs + k) = Some (x, y, z).
Proof.
  intros Hx Hy Hz. unfold product.
  pose proof (lookup_lt_Some _ _ _ Hy) as Hj.
  pose proof (lookup_lt_Some _ _ _ Hz) as Hk.
  replace ((i * length ys + j) * length zs + k)
    with (i * (length ys * length zs) + (j * length zs + k)) by lia.
  rewrite (lookup_bind_uniform _ (length ys * length zs) xs i _ x); [| |done|nia].
  - rewrite (lookup_bind_uniform _ (length zs) ys j _ y); [| |done|done].
    + by rewrite list_lookup_fmap, Hz.
    + intros y' _. by rewrite length_fmap.
  - intros x' _. apply length_bind_uniform. intros y' _. by rewrite length_fmap.
Qed.

(** C2: for code lists of sizes g, o and d the generator yields g*o*d
    identifiers and g*o*d metadata records, aligned position by position;
    the element built from the i-th geography, j-th occupation and k-th
    measure type sits at index (i*o + j)*d + k (geography outermost, then
    occupation, then measure type) and its identifier is
    "OEUS" + geography + "000000" + occupation + measure type. *)
Theorem generate_product_order (G O D : list string) :
  length (series_ids (generate G O D)) = length G * length O * length D ∧
  length (series_metadata (generate G O D)) = length G * length O * length D ∧
  series_id <$> series_metadata (generate G O D) = series_ids (generate G O D) ∧
  ∀ i j k g o d,
    G !! i = Some g → O !! j = Some o → D !! k = Some d →
    series_ids (generate G O D) !! ((i * length O + j) * length D + k)
      = Some ("OEUS" +:+ g +:+ "000000" +:+ o +:+ d) ∧
    series_metadata (generate G O D) !! ((i * length O + j) * length D + k)
      = Some {| series_id := "OEUS" +:+ g +:+ "000000" +:+ o +:+ d;
                state_code := g; occupation_code := o; datatype_code := d |}.
Proof.
  rewrite generate_series_ids, generate_series_metadata.
  rewrite !length_fmap, length_product.
  repeat split; [by rewrite <- list_fmap_compose|..];
    rewrite list_lookup_fmap, (lookup_product _ _ _ _ _ _ g o d) by done;
    reflexivity.
Qed.

Lemma generate_product_order_witness :
  series_ids (generate ["06"] ["11-0000"] datatype_codes) !! 1
    = Some "OEUS0600000011-000013" ∧
  series_metadata (generate ["06"] ["11-0000"] datatype_codes) !! 1
    = Some {| series_id := "OEUS0600000011-000013"; state_code := "06";
              occupation_code := "11-0000"; datatype_code := "13" |}.
Proof.
  apply (proj2 (proj2 (proj2
           (generate_product_order ["06"] ["11-0000"] datatype_codes)))
           0 0 1 "06" "11-0000" "13"); reflexivity.
Defined.

(** ** Batch Fetcher *)

Lemma intersperse_cons {A} (sep x : A) l :
  intersperse sep (x :: l) =
  x :: match l with [] => [] | _ :: _ => sep :: intersperse sep l end.
Proof. by destruct l. Qed.

Lemma submitted_Post b tr : submitted (Post b :: tr) = b :: submitted tr.
Proof. reflexivity. Qed.

Lemma submitted_Sleep tr : submitted (Sleep :: tr) = submitted tr.
Proof. reflexivity. Qed.

Lemma delays_Post b tr : delays (Post b :: tr) = delays tr.
Proof. reflexivity. Qed.

Lemma delays_Sleep tr : delays (Sleep :: tr) = S (delays tr).
Proof. reflexivity. Qed.

Lemma submitted_intersperse bs :
  submitted (intersperse Sleep (Post <$> bs)) = bs.
Proof.
  induction bs as [|b bs IH]; [done|].
  rewrite fmap_cons, intersperse_cons, submitted_Post.
  destruct bs as [|b' bs]; [done|].
  rewrite fmap_cons in IH |- *. cbv iota.
  by rewrite submitted_Sleep, IH.
Qed.

Lemma delays_intersperse bs :
  delays (intersperse Sleep (Post <$> bs)) = pred (length bs).
Proof.
  induction bs as [|b bs IH]; [done|].
  rewrite fmap_cons, intersperse_cons, delays_Post.
  destruct bs as [|b' bs]; [done|].
  rewrite fmap_cons in IH |- *. cbv iota.
  by rewrite delays_Sleep, IH.
Qed.

Lemma chunks_aux_nil fuel l :
  chunks_aux fuel l = [] ↔ fuel = 0 ∨ l = [].
Proof.
  destruct fuel as [|fuel], l as [|x l]; simpl; split;
    try done; try (by left); try (by right).
  intros [?|?]; done.
Qed.

Lemma concat_chunks_aux fuel l :
  length l ≤ fuel → concat (chunks_aux fuel l) = l.
Proof.
  revert l. induction fuel as [|fuel IH]; intros l Hl.
  - by destruct l; [|simpl in Hl; lia].
  - destruct l as [|x l]; [done|].
    change (chunks_aux (S fuel) (x :: l))
      with (take BATCH_SIZE (x :: l) :: chunks_aux fuel (drop BATCH_SIZE (x :: l))).
    rewrite concat_cons, IH, take_drop; [done|].
    rewrite length_drop. unfold BATCH_SIZE. simpl in *. lia.
Qed.

Lemma Forall_chunks_aux fuel l :
  Forall (λ batch, 0 < length batch ≤ BATCH_SIZE) (chunks_aux fuel l).
Proof.
  revert l. induction fuel as [|fuel IH]; intros l; [constructor|].
  destruct l as [|x l]; [constructor|].
  change (chunks_aux (S fuel) (x :: l))
    with (take BATCH_SIZE (x :: l) :: chunks_aux fuel (drop BATCH_SIZE (x :: l))).
  constructor; [|apply IH].
  rewrite length_take. unfold BATCH_SIZE. cbn [length]. lia.
Qed.

Lemma length_chunks_aux fuel l :
  length <$> chunks_aux fuel l = chunk_sizes fuel (length l).
Proof.
  revert l. induction fuel as [|fuel IH]; intros l; [done|].
  destruct l as [|x l]; [done|].
  change (chunks_aux (S fuel) (x :: l))
    with (take BATCH_SIZE (x :: l) :: chunks_aux fuel (drop BATCH_SIZE (x :: l))).
  rewrite fmap_cons, IH, length_take, length_drop. reflexivity.
Qed.

Lemma length_chunk_sizes fuel n :
  n ≤ fuel → length (chunk_sizes fuel n) = (n + BATCH_SIZE - 1) / BATCH_SIZE.
Proof.
  revert n. induction fuel as [|fuel IH]; intros n Hn.
  - replace n with 0 by lia. reflexivity.
  - destruct n as [|n]; [reflexivity|].
    cbn [chunk_sizes length]. unfold BATCH_SIZE in *. rewrite IH by lia.
    destruct (decide (S n < 50)).
    + replace (S n - 50) with 0 by lia.
      rewrite (Nat.div_small (0 + 50 - 1)) by lia.
      apply (Nat.div_unique _ _ _ n); lia.
    + set (m := S n - 50 + 50 - 1).
      replace (S n + 50 - 1) with (m + 1 * 50) by lia.
      rewrite Nat.div_add by lia. lia.
Qed.

Section FetchFacts.
Variable post : nat → list string → outcome.
Variable ids : list string.

Lemma trace_fetch_step st i :
  trace (fetch_step post ids st i) =
  trace st ++ Post (slice ids i (i + BATCH_SIZE)) ::
    (if decide (i + BATCH_SIZE < length ids) then [Sleep] else []).
Proof.
  unfold fetch_step.
  destruct (post _ _); destruct (decide _); simpl;
    by rewrite <- ?app_assoc.
Qed.

Lemma slice_batch i :
  slice ids i (i + BATCH_SIZE) = take BATCH_SIZE (drop i ids).
Proof. unfold slice. f_equal. lia. Qed.

Lemma trace_foldl_fetch fuel i st :
  length ids - i ≤ fuel →
  trace (foldl (fetch_step post ids) st
           (range_aux fuel i (length ids) BATCH_SIZE)) =
  trace st ++ intersperse Sleep (Post <$> chunks_aux fuel (drop i ids)).
Proof.
  revert i st. induction fuel as [|fuel IH]; intros i st Hfuel.
  - simpl. by rewrite app_nil_r.
  - cbn [range_aux]. destruct (decide (i < length ids)) as [Hi|Hi].
    + cbn [foldl]. rewrite IH by (unfold BATCH_SIZE; lia).
      rewrite trace_fetch_step, slice_batch, <- app_assoc. f_equal.
      destruct (drop i ids) as [|x rest] eqn:Hdrop.
      { apply (f_equal length) in Hdrop. rewrite length_drop in Hdrop.
        simpl in Hdrop. lia. }
      change (chunks_aux (S fuel) (x :: rest))
        with (take BATCH_SIZE (x :: rest)
                :: chunks_aux fuel (drop BATCH_SIZE (x :: rest))).
      rewrite <- Hdrop, drop_drop, fmap_cons, intersperse_cons.
      simpl. f_equal.
      destruct (chunks_aux fuel (drop (i + BATCH_SIZE) ids)) as [|b bs] eqn:Hc.
      * apply chunks_aux_nil in Hc.
        rewrite decide_False; [done|]. intros Hlt.
        destruct Hc as [->|Hc]; [unfold BATCH_SIZE in *; lia|].
        apply (f_equal length) in Hc. rewrite length_drop in Hc.
        simpl in Hc. lia.
      * rewrite decide_True; [done|].
        destruct (decide (i + BATCH_SIZE < length ids)); [done|].
        rewrite drop_ge in Hc by lia. by destruct fuel.
    + simpl. rewrite drop_ge by lia. by rewrite app_nil_r.
Qed.

Lemma trace_fetch :
  trace (fetch post ids) =
  intersperse Sleep (Post <$> chunks_aux (length ids) ids).
Proof.
  unfold fetch, range.
  rewrite trace_foldl_fetch by lia. by rewrite drop_0.
Qed.
End FetchFacts.

(** C3: the batches submitted are contiguous in-order pieces of the
    identifier list (their concatenation is the list), each of at most 50
    identifiers and none empty; the trace is these submissions with exactly
    one delay between consecutive ones and none after the last; for 120
    identifiers this is three batches of 50, 50 and 20 and two delays. *)
Theorem fetch_batches (post : nat → list string → outcome) (ids : list string) :
  concat (submitted (trace (fetch post ids))) = ids ∧
  Forall (λ batch, 0 < length batch ≤ 50) (submitted (trace (fetch post ids))) ∧
  length (submitted (trace (fetch post ids))) = total_batches ids ∧
  trace (fetch post ids)
    = intersperse Sleep (Post <$> submitted (trace (fetch post ids))) ∧
  delays (trace (fetch post ids))
    = pred (length (submitted (trace (fetch post ids)))) ∧
  (length ids = 120 →
   length <$> submitted (trace (fetch post ids)) = [50; 50; 20] ∧
   delays (trace (fetch post ids)) = 2).
Proof.
  rewrite trace_fetch, submitted_intersperse, delays_intersperse.
  split_and!.
  - by apply concat_chunks_aux.
  - apply Forall_chunks_aux.
  - rewrite <- (length_fmap length), length_chunks_aux.
    by apply length_chunk_sizes.
  - done.
  - done.
  - intros Hlen.
    rewrite <- (length_fmap length), length_chunks_aux, Hlen. done.
Qed.

Lemma fetch_batches_witness :
  length (replicate 120 "OEUS") = 120 ∧
  length <$> submitted (trace (fetch failing_post (replicate 120 "OEUS")))
    = [50; 50; 20] ∧
  delays (trace (fetch failing_post (replicate 120 "OEUS"))) = 2.
Proof.
  split; [reflexivity|].
  apply (fetch_batches failing_post (replicate 120 "OEUS")).
  reflexivity.
Defined.

(** ** Result Reconciler *)

Lemma bind_Ok_inv {A B} (c : result A) (k : A → result B) b :
  c ≫= k = Ok b → ∃ a, c = Ok a ∧ k a = Ok b.
Proof. destruct c as [a|e]; intros H; [by exists a | discriminate H]. Qed.

Lemma bind_Raise_inv {A B} (c : result A) (k : A → result B) e :
  c ≫= k = Raise e → c = Raise e ∨ ∃ a, c = Ok a ∧ k a = Raise e.
Proof.
  destruct c as [a|e']; intros H; [right; by exists a | left; by injection H as ->].
Qed.

Lemma collect_Ok {A B} (f : A → result B) l ys :
  collect f l = Ok ys ↔ Forall2 (λ x y, f x = Ok y) l ys.
Proof.
  revert ys. induction l as [|x l IH]; intros ys; simpl.
  - split; [intros [= <-]; constructor | by inversion 1].
  - split.
    + intros (y & Hy & H)%bind_Ok_inv.
      apply bind_Ok_inv in H as (ys' & Hys & [= <-]).
      constructor; [done | by apply IH].
    + inversion 1 as [|? y ? ys' Hy Hys]; subst.
      rewrite Hy. simpl. apply IH in Hys. by rewrite Hys.
Qed.

Lemma collect_Raise {A B} (f : A → result B) l e :
  collect f l = Raise e → ∃ x, x ∈ l ∧ f x = Raise e.
Proof.
  induction l as [|x l IH]; simpl; [done|].
  intros [H|(y & Hy & H)]%bind_Raise_inv.
  - exists x. split; [left | done].
  - apply bind_Raise_inv in H as [H|(ys & _ & H)]; [|done].
    destruct (IH H) as (x' & Hx' & Hf). exists x'. split; [by right | done].
Qed.

Lemma bind_Ok {A B} (a : A) (k : A → result B) : Ok a ≫= k = k a.
Proof. reflexivity. Qed.

Lemma bind_Raise {A B} (e : exn) (k : A → result B) : Raise e ≫= k = Raise e.
Proof. reflexivity. Qed.

Lemma collect_cons {A B} (f : A → result B) x l :
  collect f (x :: l) = y ← f x; ys ← collect f l; Ok (y :: ys).
Proof. reflexivity. Qed.

Lemma collect_app {A B} (f : A → result B) l1 l2 :
  collect f (l1 ++ l2) =
  ys1 ← collect f l1; ys2 ← collect f l2; Ok (ys1 ++ ys2).
Proof.
  induction l1 as [|x l1 IH].
  - simpl. rewrite ?bind_Ok. by destruct (collect f l2).
  - rewrite <- app_comm_cons, !collect_cons, IH.
    destruct (f x) as [y|e]; [rewrite !bind_Ok | done].
    destruct (collect f l1) as [ys1|e]; [rewrite !bind_Ok | done].
    by destruct (collect f l2).
Qed.

Lemma elem_of_concat {A} (x : A) (ls : list (list A)) :
  x ∈ concat ls ↔ ∃ l, x ∈ l ∧ l ∈ ls.
Proof.
  induction ls as [|l ls IH]; simpl.
  - split; [by intros ?%elem_of_nil | by intros (l & _ & ?%elem_of_nil)].
  - rewrite elem_of_app, IH. split.
    + intros [Hx|(l' & Hx & Hl')]; [exists l; split; [done | left]|].
      exists l'. split; [done | by right].
    + intros (l' & Hx & [->|Hl']%elem_of_cons); [by left|].
      right. by exists l'.
Qed.

Lemma collect_elem_of {A B} (f : A → result B) l ys :
  collect f l = Ok ys → ∀ y, y ∈ ys ↔ ∃ i x, l !! i = Some x ∧ ys !! i = Some y ∧ f x = Ok y.
Proof.
  intros H%collect_Ok y. rewrite list_elem_of_lookup. split.
  - intros [i Hi].
    destruct (Forall2_lookup_r _ _ _ _ _ H Hi) as (x & Hx & Hf). by exists i, x.
  - intros (i & x & _ & Hi & _). by exists i.
Qed.

Lemma collect_Ok_elem_of {A B} (f : A → result B) l ys x :
  collect f l = Ok ys → x ∈ l → ∃ y, f x = Ok y ∧ y ∈ ys.
Proof.
  intros H%collect_Ok [i Hi]%list_elem_of_lookup.
  destruct (Forall2_lookup_l _ _ _ _ _ H Hi) as (y & Hy & Hf).
  exists y. split; [done|]. apply list_elem_of_lookup. by exists i.
Qed.

Lemma collect_total {A B} (f : A → result B) l :
  (∀ x, x ∈ l → ∃ y, f x = Ok y) → ∃ ys, collect f l = Ok ys.
Proof.
  induction l as [|x l IH]; intros Hf; [by exists []|].
  destruct (Hf x) as [y Hy]; [left|].
  destruct IH as [ys Hys]; [intros x' Hx'; apply Hf; by right|].
  exists (y :: ys). by rewrite collect_cons, Hy, bind_Ok, Hys.
Qed.

Lemma annual_cons p points :
  annual (p :: points) =
  if decide (period p = "A01") then p :: annual points else annual points.
Proof. reflexivity. Qed.

Section ReconcileFacts.
Context {pyfloat : Type}.
Variable float : string → option pyfloat.

Lemma point_row_Ok sid m p v :
  parse_value float (value p) = Ok v →
  point_row float sid m p =
  Ok {| row_series_id := sid;
        row_state_code := state_code m;
        row_occupation_code := occupation_code m;
        row_datatype_code := datatype_code m;
        row_year := year p;
        row_value := v |}.
Proof. unfold point_row. by intros ->. Qed.

Lemma point_row_Raise sid m p e :
  parse_value float (value p) = Raise e → point_row float sid m p = Raise e.
Proof. unfold point_row. by intros ->. Qed.

Lemma for_data_points_collect sid m points acc :
  for_data_points float sid m points acc =
  rows ← collect (point_row float sid m) (annual points); Ok (acc ++ rows).
Proof.
  revert acc. induction points as [|p points IH]; intros acc.
  - simpl. by rewrite ?bind_Ok, app_nil_r.
  - cbn [for_data_points]. rewrite annual_cons.
    destruct (decide (period p = "A01")) as [Hp|Hp]; [|apply IH].
    rewrite collect_cons.
    destruct (parse_value float (value p)) as [v|e] eqn:Hv;
      [rewrite (point_row_Ok _ _ _ _ Hv) | by rewrite (point_row_Raise _ _ _ _ Hv)].
    rewrite !bind_Ok, IH.
    destruct (collect _ (annual points)) as [rows|e]; [|done].
    by rewrite !bind_Ok, <- app_assoc.
Qed.

Lemma series_rows_Some md s m :
  find_metadata md (seriesID s) = Some m →
  series_rows float md s =
  collect (point_row float (seriesID s) m) (annual (data s)).
Proof. unfold series_rows. by intros ->. Qed.

Lemma series_rows_None md s :
  find_metadata md (seriesID s) = None → series_rows float md s = Ok [].
Proof. unfold series_rows. by intros ->. Qed.

Lemma for_series_collect md results acc :
  for_series float md results acc =
  rows ← collect (series_rows float md) results; Ok (acc ++ concat rows).
Proof.
  revert acc. induction results as [|s results IH]; intros acc.
  - simpl. by rewrite ?bind_Ok, app_nil_r.
  - cbn [for_series]. rewrite collect_cons.
    destruct (find_metadata md (seriesID s)) as [m|] eqn:Hm;
      [rewrite (series_rows_Some _ _ _ Hm) | rewrite (series_rows_None _ _ Hm)].
    + rewrite for_data_points_collect.
      destruct (collect _ (annual (data s))) as [rows|e]; [|done].
      rewrite !bind_Ok, IH.
      destruct (collect _ results) as [rowss|e]; [|done].
      by rewrite !bind_Ok, concat_cons, <- app_assoc.
    + rewrite bind_Ok, IH. by destruct (collect _ results).
Qed.

Lemma reconcile_collect md results :
  reconcile float md results =
  rows ← collect (series_rows float md) results; Ok (concat rows).
Proof. unfold reconcile. by rewrite for_series_collect. Qed.

Lemma parse_value_Raise v e :
  parse_value float v = Raise e → e = ValueError v ∧ v ≠ "-" ∧ float v = None.
Proof.
  unfold parse_value. destruct (decide (v ≠ "-")); [|done].
  by destruct (float v); [|intros [= <-]].
Qed.

Lemma parse_value_sentinel : parse_value float "-" = Ok None.
Proof. reflexivity. Qed.

Lemma parse_value_number v x :
  v ≠ "-" → float v = Some x → parse_value float v = Ok (Some x).
Proof.
  intros Hv Hx. unfold parse_value. rewrite decide_True by done. by rewrite Hx.
Qed.

Lemma elem_of_annual p points :
  p ∈ annual points ↔ p ∈ points ∧ period p = "A01".
Proof. unfold annual. rewrite list_elem_of_filter. tauto. Qed.

(** Where a record of the result comes from. *)
Lemma reconcile_elem_of md results out row :
  reconcile float md results = Ok out →
  row ∈ out ↔
  ∃ s m p, s ∈ results ∧ find_metadata md (seriesID s) = Some m ∧
    p ∈ data s ∧ period p = "A01" ∧
    point_row float (seriesID s) m p = Ok row.
Proof.
  rewrite reconcile_collect.
  intros (rowss & Hc & [= <-])%bind_Ok_inv. split.
  - intros (rows & Hrow & Hrows)%elem_of_concat.
    apply (collect_elem_of _ _ _ Hc) in Hrows as (i & s & Hs & _ & Hf).
    unfold series_rows in Hf.
    destruct (find_metadata md (seriesID s)) as [m|] eqn:Hm.
    + apply (collect_elem_of _ _ _ Hf) in Hrow as (j & p & Hp & _ & Hr).
      apply list_elem_of_lookup_2, elem_of_annual in Hp as [Hp Ha].
      exists s, m, p. split_and!; try done.
      by apply list_elem_of_lookup_2 in Hs.
    + injection Hf as <-. by apply elem_of_nil in Hrow.
  - intros (s & m & p & Hs & Hm & Hp & Ha & Hr).
    destruct (collect_Ok_elem_of _ _ _ _ Hc Hs) as (rows & Hf & Hrows).
    rewrite (series_rows_Some _ _ _ Hm) in Hf.
    destruct (collect_Ok_elem_of _ _ _ p Hf) as (row' & Hr' & Hrow').
    { by apply elem_of_annual. }
    apply elem_of_concat. exists rows. split; [|done]. congruence.
Qed.

(** Reconciliation raises nothing but the [ValueError] of [float]. *)
Lemma reconcile_Raise md results e :
  reconcile float md results = Raise e →
  ∃ s m p, s ∈ results ∧ find_metadata md (seriesID s) = Some m ∧
    p ∈ data s ∧ period p = "A01" ∧ value p ≠ "-" ∧
    float (value p) = None ∧ e = ValueError (value p).
Proof.
  rewrite reconcile_collect.
  intros [Hc|(rowss & _ & [=])]%bind_Raise_inv.
  apply collect_Raise in Hc as (s & Hs & Hf). unfold series_rows in Hf.
  destruct (find_metadata md (seriesID s)) as [m|] eqn:Hm; [|done].
  apply collect_Raise in Hf as (p & [Hp Ha]%elem_of_annual & Hr).
  unfold point_row in Hr.
  apply bind_Raise_inv in Hr as [Hr|(v & _ & [=])].
  apply parse_value_Raise in Hr as (-> & Hv & Hfl). by exists s, m, p.
Qed.

(** Reconciliation returns when every selected value can be read. *)
Lemma reconcile_total md results :
  (∀ s m p, s ∈ results → find_metadata md (seriesID s) = Some m →
     p ∈ data s → period p = "A01" →
     value p = "-" ∨ is_Some (float (value p))) →
  ∃ out, reconcile float md results = Ok out.
Proof.
  intros Hv. destruct (reconcile float md results) as [out|e] eqn:Hr;
    [by exists out|].
  apply reconcile_Raise in Hr as (s & m & p & Hs & Hm & Hp & Ha & Hne & Hfl & _).
  destruct (Hv s m p) as [?|[x Hx]]; try done. congruence.
Qed.

End ReconcileFacts.

Section ReconcileClaims.
Context {pyfloat : Type}.
Variable float : string → option pyfloat.

Lemma point_row_inv sid m p row :
  point_row float sid m p = Ok row →
  parse_value float (value p) = Ok (row_value row) ∧
  row = {| row_series_id := sid;
           row_state_code := state_code m;
           row_occupation_code := occupation_code m;
           row_datatype_code := datatype_code m;
           row_year := year p;
           row_value := row_value row |}.
Proof.
  unfold point_row. intros (v & Hv & [= <-])%bind_Ok_inv. by rewrite Hv.
Qed.

Lemma find_metadata_None md sid :
  find_metadata md sid = None ↔ ∀ m, m ∈ md → series_id m ≠ sid.
Proof.
  unfold find_metadata. rewrite fmap_None, list_find_None, Forall_forall.
  reflexivity.
Qed.


End ReconcileClaims.

(** C1 (the code departs from the claim): for a returned series with
    matching metadata and two observations marked "A01", the reconciler
    appends a flat record for each of them, not only for the first. *)
Theorem reconcile_every_annual :
  reconcile float_of_digits sample_metadata [two_annual_series] =
  Ok [ {| row_series_id := "OEUS0600000011-000004";
          row_state_code := "06";
          row_occupation_code := "11-0000";
          row_datatype_code := "04";
          row_year := "2023";
          row_value := Some 52000%N |};
       {| row_series_id := "OEUS0600000011-000004";
          row_state_code := "06";
          row_occupation_code := "11-0000";
          row_datatype_code := "04";
          row_year := "2022";
          row_value := Some 50000%N |} ].
Proof. vm_compute. reflexivity. Qed.

Lemma point_row_readable {pyfloat} (float : string → option pyfloat)
    sid m p :
  value p = "-" ∨ is_Some (float (value p)) →
  point_row float sid m p =
  Ok {| row_series_id := sid;
        row_state_code := state_code m;
        row_occupation_code := occupation_code m;
        row_datatype_code := datatype_code m;
        row_year := year p;
        row_value := if decide (value p = "-") then None
                     else float (value p) |}.
Proof.
  intros Hv. apply point_row_Ok. unfold parse_value.
  destruct (decide (value p = "-")) as [Hs|Hs].
  - by rewrite decide_False by (by intros ?).
  - rewrite decide_True by done.
    destruct Hv as [?|[x Hx]]; [done|]. by rewrite Hx.
Qed.

(** C6: when every selected observation (period "A01", in a series with
    matching metadata) has a value that is "-" or that [float] accepts, the
    reconciliation returns, and its records are exactly those of the
    selected observations, the value of a record being absent where the
    observation has "-" and the number [float] reads otherwise; when some
    selected value is neither "-" nor accepted by [float], the
    reconciliation raises ValueError and so does the rest of the run; and
    an exception of the reconciliation always stems from such a value,
    never from the sentinel. *)
Theorem reconcile_values {pyfloat} (float : string → option pyfloat)
    (md : list Metadata) (results : list Series) :
  ((∀ s m p, s ∈ results → find_metadata md (seriesID s) = Some m →
      p ∈ data s → period p = "A01" →
      value p = "-" ∨ is_Some (float (value p))) →
   ∃ out, reconcile float md results = Ok out ∧
     ∀ row, row ∈ out ↔
       ∃ s m p, s ∈ results ∧ find_metadata md (seriesID s) = Some m ∧
         p ∈ data s ∧ period p = "A01" ∧
         row = {| row_series_id := seriesID s;
                  row_state_code := state_code m;
                  row_occupation_code := occupation_code m;
                  row_datatype_code := datatype_code m;
                  row_year := year p;
                  row_value := if decide (value p = "-") then None
                               else float (value p) |}) ∧
  (∀ s m p, s ∈ results → find_metadata md (seriesID s) = Some m →
     p ∈ data s → period p = "A01" →
     value p ≠ "-" → float (value p) = None →
     ∃ msg, reconcile float md results = Raise (ValueError msg) ∧
       ∀ codes, process float codes md results = Raise (ValueError msg)) ∧
  (∀ e, reconcile float md results = Raise e →
     ∃ s m p, s ∈ results ∧ find_metadata md (seriesID s) = Some m ∧
       p ∈ data s ∧ period p = "A01" ∧
       value p ≠ "-" ∧ float (value p) = None ∧ e = ValueError (value p)).
Proof.
  split_and!.
  - intros Hvalues.
    destruct (reconcile_total float _ _ Hvalues) as [out Hout].
    exists out. split; [done|]. intros row.
    rewrite (reconcile_elem_of _ _ _ _ _ Hout). split.
    + intros (s & m & p & Hs & Hm & Hp & Ha & Hrow).
      exists s, m, p. split_and!; try done.
      rewrite (point_row_readable float) in Hrow by eauto.
      by injection Hrow as <-.
    + intros (s & m & p & Hs & Hm & Hp & Ha & ->).
      exists s, m, p. split_and!; try done.
      apply point_row_readable. eauto.
  - intros s m p Hs Hm Hp Ha Hv Hx.
    destruct (reconcile float md results) as [out|e] eqn:Hr.
    + assert (∃ row, point_row float (seriesID s) m p = Ok row) as [row Hrow].
      { rewrite reconcile_collect in Hr.
        apply bind_Ok_inv in Hr as (rowss & Hc & _).
        destruct (collect_Ok_elem_of _ _ _ _ Hc Hs) as (rows & Hrows & _).
        rewrite (series_rows_Some _ _ _ _ Hm) in Hrows.
        destruct (collect_Ok_elem_of _ _ _ p Hrows) as (row & Hrow & _);
          [by apply elem_of_annual | by exists row]. }
      apply point_row_inv in Hrow as [Hpv _].
      unfold parse_value in Hpv. rewrite decide_True, Hx in Hpv; done.
    + pose proof Hr as Hr'.
      apply reconcile_Raise in Hr' as (s' & m' & p' & _ & _ & _ & _ & _ & _ & ->).
      eexists. split; [done|]. intros codes. unfold process. by rewrite Hr.
  - intros e He. by apply reconcile_Raise in He.
Qed.

Lemma reconcile_values_witness :
  reconcile float_of_digits sample_metadata
    [sentinel_series; two_annual_series]
  = Ok [ {| row_series_id := "OEUS0600000011-000004";
            row_state_code := "06";
            row_occupation_code := "11-0000";
            row_datatype_code := "04";
            row_year := "2023";
            row_value := None |};
         {| row_series_id := "OEUS0600000011-000004";
            row_state_code := "06";
            row_occupation_code := "11-0000";
            row_datatype_code := "04";
            row_year := "2023";
            row_value := Some 52000%N |};
         {| row_series_id := "OEUS0600000011-000004";
            row_state_code := "06";
            row_occupation_code := "11-0000";
            row_datatype_code := "04";
            row_year := "2022";
            row_value := Some 50000%N |} ] ∧
  ∃ out,
    reconcile float_of_digits sample_metadata
      [sentinel_series; two_annual_series] = Ok out ∧
    ∀ row, row ∈ out ↔
      ∃ s m p, s ∈ [sentinel_series; two_annual_series] ∧
        find_metadata sample_metadata (seriesID s) = Some m ∧
        p ∈ data s ∧ period p = "A01" ∧
        row = {| row_series_id := seriesID s;
                 row_state_code := state_code m;
                 row_occupation_code := occupation_code m;
                 row_datatype_code := datatype_code m;
                 row_year := year p;
                 row_value := if decide (value p = "-") then None
                              else float_of_digits (value p) |}.
Proof.
  split; [vm_compute; reflexivity|].
  apply (proj1 (reconcile_values float_of_digits sample_metadata
                  [sentinel_series; two_annual_series])).
  intros s m p Hs _ Hp _.
  repeat (apply elem_of_cons in Hs as [->|Hs]);
    [| |by apply elem_of_nil in Hs].
  - apply list_elem_of_singleton in Hp as ->. by left.
  - repeat (apply elem_of_cons in Hp as [->|Hp]);
      [right; by eexists | right; by eexists | by apply elem_of_nil in Hp].
Defined.

(** C7: a returned series whose identifier matches no metadata record is
    skipped: on its own it yields no flat record and no exception, and
    anywhere in the results it leaves the outcome of the reconciliation
    what the remaining records alone give. *)
Theorem reconcile_skips_unmatched {pyfloat} (float : string → option pyfloat)
    (md : list Metadata) (pre post : list Series) (s : Series) :
  (∀ m, m ∈ md → series_id m ≠ seriesID s) →
  reconcile float md [s] = Ok [] ∧
  reconcile float md (pre ++ s :: post) = reconcile float md (pre ++ post).
Proof.
  intros Hs%find_metadata_None.
  rewrite !reconcile_collect, !collect_app, !collect_cons.
  rewrite (series_rows_None _ _ _ Hs), !bind_Ok. split; [done|].
  destruct (collect _ pre) as [rs1|e]; [rewrite !bind_Ok | done].
  destruct (collect _ post) as [rs2|e]; [rewrite !bind_Ok | done].
  by rewrite !concat_app.
Qed.

Lemma reconcile_skips_unmatched_witness :
  reconcile float_of_digits sample_metadata [unknown_series] = Ok [] ∧
  reconcile float_of_digits sample_metadata
    ([sentinel_series] ++ unknown_series :: [two_annual_series]) =
  reconcile float_of_digits sample_metadata
    ([sentinel_series] ++ [two_annual_series]).
Proof.
  apply (reconcile_skips_unmatched float_of_digits sample_metadata
           [sentinel_series] [two_annual_series] unknown_series).
  apply Forall_forall. vm_compute. repeat constructor; discriminate.
Defined.



(** ** Uniqueness of generated identifiers *)

Lemma append_length_inj (a a' b b' : string) :
  String.length a = String.length a' →
  a +:+ b = a' +:+ b' → a = a' ∧ b = b'.
Proof.
  revert a'. induction a as [|c a IH]; intros [|c' a'] Hlen Heq;
    simpl in *; try discriminate; [done|].
  injection Heq as -> Heq. injection Hlen as Hlen.
  destruct (IH _ Hlen Heq) as [-> ->]. done.
Qed.

Lemma make_series_id_inj g o d g' o' d' :
  String.length g = String.length g' →
  String.length o = String.length o' →
  make_series_id g o d = make_series_id g' o' d' →
  g = g' ∧ o = o' ∧ d = d'.
Proof.
  intros Hg Ho Heq. unfold make_series_id in Heq.
  apply append_length_inj in Heq as [_ Heq]; [|done].
  apply append_length_inj in Heq as [-> Heq]; [|done].
  apply append_length_inj in Heq as [_ Heq]; [|done].
  apply append_length_inj in Heq as [-> ->]; done.
Qed.

Lemma elem_of_product {A B C} (xs : list A) (ys : list B) (zs : list C) x y z :
  (x, y, z) ∈ product xs ys zs ↔ x ∈ xs ∧ y ∈ ys ∧ z ∈ zs.
Proof.
  unfold product. rewrite list_elem_of_bind. split.
  - intros (x' & (y' & (z' & [= -> -> ->] & Hz)%list_elem_of_fmap & Hy)
             %list_elem_of_bind & Hx). done.
  - intros (Hx & Hy & Hz). exists x. split; [|done].
    apply list_elem_of_bind. exists y. split; [|done].
    apply list_elem_of_fmap. by exists z.
Qed.

Lemma NoDup_product {A B C} (xs : list A) (ys : list B) (zs : list C) :
  NoDup xs → NoDup ys → NoDup zs → NoDup (product xs ys zs).
Proof.
  intros Hxs Hys Hzs. unfold product. apply NoDup_bind; [| |done].
  - intros x1 x2 [[x y] z] _ _.
    intros (y1 & (z1 & [= -> _ _] & _)%list_elem_of_fmap & _)%list_elem_of_bind.
    intros (y2 & (z2 & [= -> _ _] & _)%list_elem_of_fmap & _)%list_elem_of_bind.
    done.
  - intros x _. apply NoDup_bind; [| |done].
    + intros y1 y2 [[x' y] z] _ _.
      intros (z1 & [= _ -> _] & _)%list_elem_of_fmap.
      intros (z2 & [= _ -> _] & _)%list_elem_of_fmap. done.
    + intros y _. apply NoDup_fmap_2; [|done]. by intros z1 z2 [= ->].
Qed.

(** C8, amended: when the three code lists are free of repetitions and, in
    addition, all geography codes have one length and all occupation codes
    have one length, the generated identifiers are pairwise distinct. *)
Theorem generate_ids_NoDup (G O D : list string) :
  NoDup G → NoDup O → NoDup D →
  (∀ g g', g ∈ G → g' ∈ G → String.length g = String.length g') →
  (∀ o o', o ∈ O → o' ∈ O → String.length o = String.length o') →
  NoDup (series_ids (generate G O D)).
Proof.
  intros HG HO HD HlenG HlenO. rewrite generate_series_ids.
  apply NoDup_fmap_2_strong; [|by apply NoDup_product].
  intros [[g o] d] [[g' o'] d'] (Hg & Ho & Hd)%elem_of_product
    (Hg' & Ho' & Hd')%elem_of_product Heq. simpl in Heq.
  apply make_series_id_inj in Heq as (-> & -> & ->); auto.
Qed.

Lemma generate_ids_NoDup_witness :
  NoDup (series_ids (generate ["06"; "48"] ["11-0000"; "13-0000"] datatype_codes)).
Proof.
  apply generate_ids_NoDup.
  - apply (bool_decide_unpack _). vm_compute. exact I.
  - apply (bool_decide_unpack _). vm_compute. exact I.
  - apply (bool_decide_unpack _). vm_compute. exact I.
  - intros g g' Hg Hg'.
    repeat (apply elem_of_cons in Hg as [->|Hg]);
      repeat (apply elem_of_cons in Hg' as [->|Hg']);
      try reflexivity; by apply elem_of_nil in Hg || by apply elem_of_nil in Hg'.
  - intros o o' Ho Ho'.
    repeat (apply elem_of_cons in Ho as [->|Ho]);
      repeat (apply elem_of_cons in Ho' as [->|Ho']);
      try reflexivity; by apply elem_of_nil in Ho || by apply elem_of_nil in Ho'.
Defined.

(** C8 as stated fails: occupations "1", "11" and measure types "13", "3"
    are free of repetitions, yet the first and the fourth identifier
    generated from them are both "OEUS06000000113". *)
Lemma identifiers_collide :
  NoDup ["06"] ∧ NoDup colliding_occupations ∧ NoDup colliding_datatypes ∧
  ¬ NoDup (series_ids
             (generate ["06"] colliding_occupations colliding_datatypes)).
Proof.
  split_and!; apply (bool_decide_unpack _); vm_compute; exact I.
Qed.

(** ** Labelling and output *)

Section OutputFacts.
Context {pyfloat : Type}.
Variable float : string → option pyfloat.
Variable codes : Codes.

Lemma series_map_codes (names : gmap string string)
    (code : FlatRecord pyfloat → string) rows :
  series_map names ((λ r, @Str pyfloat (code r)) <$> rows) =
  (λ r, name_cell names (code r)) <$> rows.
Proof. unfold series_map. by rewrite <- list_fmap_compose. Qed.

Lemma mkDataFrame_rows (r : FlatRecord pyfloat) rs :
  mkDataFrame (row_dict <$> r :: rs) =
  {| index_len := length (r :: rs);
     columns :=
       [ ("series_id", (λ r, Str (row_series_id r)) <$> r :: rs);
         ("state_code", (λ r, Str (row_state_code r)) <$> r :: rs);
         ("occupation_code", (λ r, Str (row_occupation_code r)) <$> r :: rs);
         ("datatype_code", (λ r, Str (row_datatype_code r)) <$> r :: rs);
         ("year", (λ r, Str (row_year r)) <$> r :: rs);
         ("value",
          (λ r, match row_value r with Some x => Num x | None => NaN end)
            <$> r :: rs) ] |}.
Proof.
  unfold mkDataFrame. rewrite length_fmap. f_equal.
  change (match row_dict <$> r :: rs with [] => [] | d :: _ => d.*1 end)
    with ["series_id"; "state_code"; "occupation_code"; "datatype_code";
          "year"; "value"].
  generalize (r :: rs). intros rows.
  rewrite !fmap_cons, fmap_nil, <- !list_fmap_compose. reflexivity.
Qed.

Lemma lines_of_columns {A} (fs : list (A → cell pyfloat)) (ks : list string) rows :
  length ks = length fs →
  (λ i, (λ c : string * list (cell pyfloat), default NaN (c.2 !! i))
          <$> zip ks ((λ f, f <$> rows) <$> fs))
    <$> seq 0 (length rows)
  = (λ r, (λ f, f r) <$> fs) <$> rows.
Proof.
  intros Hks. apply list_eq. intros i. rewrite !list_lookup_fmap.
  destruct (rows !! i) as [r|] eqn:Hr.
  - rewrite lookup_seq_lt by (by apply lookup_lt_Some in Hr). simpl. f_equal.
    clear -Hr Hks. revert ks Hks.
    induction fs as [|f fs IH]; intros [|k ks] Hks; simpl in *; try done.
    rewrite list_lookup_fmap, Hr. simpl. f_equal. apply IH. lia.
  - by rewrite lookup_seq_ge by (by apply lookup_ge_None in Hr).
Qed.

Lemma label_rows (rows : list (FlatRecord pyfloat)) :
  label codes
    {| index_len := length rows;
       columns :=
         [ ("series_id", (λ r, Str (row_series_id r)) <$> rows);
           ("state_code", (λ r, Str (row_state_code r)) <$> rows);
           ("occupation_code", (λ r, Str (row_occupation_code r)) <$> rows);
           ("datatype_code", (λ r, Str (row_datatype_code r)) <$> rows);
           ("year", (λ r, Str (row_year r)) <$> rows);
           ("value",
            (λ r, match row_value r with Some x => Num x | None => NaN end)
              <$> rows) ] |} =
  Ok {| index_len := length rows;
        columns :=
          zip ["series_id"; "state_code"; "occupation_code"; "datatype_code";
               "year"; "value"; "state_name"; "occupation_name";
               "datatype_name"]
            ((λ f, f <$> rows) <$>
               [ (λ r, Str (row_series_id r));
                 (λ r, Str (row_state_code r));
                 (λ r, Str (row_occupation_code r));
                 (λ r, Str (row_datatype_code r));
                 (λ r, Str (row_year r));
                 (λ r, match row_value r with Some x => Num x | None => NaN end);
                 (λ r, name_cell (state_names codes) (row_state_code r));
                 (λ r, name_cell (occupation_names codes) (row_occupation_code r));
                 (λ r, name_cell (datatype_names codes) (row_datatype_code r))
               ]) |}.
Proof.
  rewrite !fmap_cons, fmap_nil. cbn [zip_with].
  rewrite <- (series_map_codes (state_names codes) row_state_code).
  rewrite <- (series_map_codes (occupation_names codes) row_occupation_code).
  rewrite <- (series_map_codes (datatype_names codes) row_datatype_code).
  reflexivity.
Qed.

Lemma label_to_csv_rows (r : FlatRecord pyfloat) rs :
  (df ← label codes (mkDataFrame (row_dict <$> r :: rs)); Ok (to_csv df)) =
  Ok {| header :=
          ["series_id"; "state_code"; "occupation_code"; "datatype_code";
           "year"; "value"; "state_name"; "occupation_name";
           "datatype_name"];
        lines := csv_line codes <$> r :: rs |}.
Proof.
  rewrite mkDataFrame_rows, label_rows, bind_Ok. unfold to_csv.
  cbn [columns index_len]. rewrite lines_of_columns by reflexivity.
  reflexivity.
Qed.

Lemma label_empty :
  label codes (mkDataFrame (row_dict (pyfloat := pyfloat) <$> []))
  = Raise (KeyError "state_code").
Proof. reflexivity. Qed.

Lemma process_rows md results rows :
  reconcile float md results = Ok rows → rows ≠ [] →
  process float codes md results =
  Ok {| header :=
          ["series_id"; "state_code"; "occupation_code"; "datatype_code";
           "year"; "value"; "state_name"; "occupation_name";
           "datatype_name"];
        lines := csv_line codes <$> rows |}.
Proof.
  intros Hr Hne. unfold process. rewrite Hr, bind_Ok.
  destruct rows as [|r rs]; [done|]. apply label_to_csv_rows.
Qed.

Lemma process_Ok_inv md results csv :
  process float codes md results = Ok csv →
  ∃ rows, reconcile float md results = Ok rows ∧ rows ≠ [].
Proof.
  unfold process. intros (rows & Hr & Hl)%bind_Ok_inv.
  exists rows. split; [done|]. intros ->.
  by rewrite label_empty in Hl.
Qed.

End OutputFacts.

(** C4 (the code departs from the claim): when every request fails, the
    batching stage still submits its batch and ends with an empty
    accumulator, and the reconciliation returns no record; but the frame
    built from no record has no column, so the labelling stage raises
    KeyError for "state_code" and the run stops there. *)
Theorem main_raises_after_failed_batches :
  submitted
    (trace (fetch failing_post
              (series_ids (generate ["06"] ["11-0000"] datatype_codes))))
    = [["OEUS0600000011-000004"; "OEUS0600000011-000013"]] ∧
  all_results
    (fetch failing_post
       (series_ids (generate ["06"] ["11-0000"] datatype_codes))) = [] ∧
  reconcile float_of_digits
    (series_metadata (generate ["06"] ["11-0000"] datatype_codes)) []
    = Ok [] ∧
  label sample_codes (mkDataFrame (row_dict (pyfloat := N) <$> []))
    = Raise (KeyError "state_code") ∧
  main float_of_digits sample_codes ["06"] ["11-0000"] failing_post
    = Raise (KeyError "state_code").
Proof. split_and!; vm_compute; reflexivity. Qed.

(** C5, amended: the file written at the end of a run that succeeds has one
    line per flat record, in order, and nine columns: identifier,
    geographic code, occupation code, measure-type code, year and value,
    followed by the geographic, occupation and measure-type names. *)
Theorem main_output {pyfloat} (float : string → option pyfloat)
    (codes : Codes) (G O : list string) (post : nat → list string → outcome)
    (csv : CsvFile pyfloat) :
  main float codes G O post = Ok csv →
  header csv =
    ["series_id"; "state_code"; "occupation_code"; "datatype_code"; "year";
     "value"; "state_name"; "occupation_name"; "datatype_name"] ∧
  ∃ rows,
    reconcile float (series_metadata (generate G O datatype_codes))
      (all_results (fetch post (series_ids (generate G O datatype_codes))))
      = Ok rows ∧
    length (lines csv) = length rows ∧
    lines csv = csv_line codes <$> rows.
Proof.
  unfold main. intros Hcsv.
  destruct (process_Ok_inv _ _ _ _ _ Hcsv) as (rows & Hrows & Hne).
  rewrite (process_rows _ _ _ _ _ Hrows Hne) in Hcsv.
  injection Hcsv as <-. split; [done|].
  exists rows. split_and!; [done| |done]. simpl. by rewrite length_fmap.
Qed.

Lemma main_output_witness :
  header sample_csv =
    ["series_id"; "state_code"; "occupation_code"; "datatype_code"; "year";
     "value"; "state_name"; "occupation_name"; "datatype_name"] ∧
  ∃ rows,
    reconcile float_of_digits
      (series_metadata (generate ["06"] ["11-0000"] datatype_codes))
      (all_results
         (fetch sample_post
            (series_ids (generate ["06"] ["11-0000"] datatype_codes))))
      = Ok rows ∧
    length (lines sample_csv) = length rows ∧
    lines sample_csv = csv_line sample_codes <$> rows.
Proof.
  apply (main_output float_of_digits sample_codes ["06"] ["11-0000"]
           sample_post sample_csv).
  vm_compute. reflexivity.
Defined.

(** C5 as stated fails: the file of a successful run has the three name
    columns besides the six the claim lists. *)
Lemma csv_has_name_columns :
  main float_of_digits sample_codes ["06"] ["11-0000"] sample_post
    = Ok sample_csv ∧
  header sample_csv ≠
    ["series_id"; "state_code"; "occupation_code"; "datatype_code"; "year";
     "value"].
Proof. split; [vm_compute; reflexivity | discriminate]. Qed.

(** * Further properties *)

(** ** The accumulator and the batches of the fetch loop *)

Section FetchResults.
Variable post : nat → list string → outcome.
Variable ids : list string.

Lemma all_results_fetch_step st i :
  all_results (fetch_step post ids st i) =
  all_results st ++
    series_of (post (i / BATCH_SIZE + 1) (slice ids i (i + BATCH_SIZE))).
Proof.
  unfold fetch_step.
  destruct (post _ _); destruct (decide _); simpl; by rewrite ?app_nil_r.
Qed.

Lemma all_results_foldl_fetch fuel k st :
  length ids - k * BATCH_SIZE ≤ fuel →
  all_results (foldl (fetch_step post ids) st
                 (range_aux fuel (k * BATCH_SIZE) (length ids) BATCH_SIZE)) =
  all_results st ++
    concat (imap (λ j batch, series_of (post (S (k + j)) batch))
              (chunks_aux fuel (drop (k * BATCH_SIZE) ids))).
Proof.
  revert k st. induction fuel as [|fuel IH]; intros k st Hfuel.
  - simpl. by rewrite app_nil_r.
  - cbn [range_aux].
    destruct (decide (k * BATCH_SIZE < length ids)) as [Hi|Hi].
    + cbn [foldl].
      replace (k * BATCH_SIZE + BATCH_SIZE) with (S k * BATCH_SIZE) by lia.
      rewrite IH by (unfold BATCH_SIZE in *; lia).
      rewrite all_results_fetch_step, slice_batch, <- app_assoc. f_equal.
      destruct (drop (k * BATCH_SIZE) ids) as [|x rest] eqn:Hdrop.
      { apply (f_equal length) in Hdrop. rewrite length_drop in Hdrop.
        simpl in Hdrop. lia. }
      change (chunks_aux (S fuel) (x :: rest))
        with (take BATCH_SIZE (x :: rest)
                :: chunks_aux fuel (drop BATCH_SIZE (x :: rest))).
      rewrite <- Hdrop, drop_drop, imap_cons, concat_cons.
      replace (k * BATCH_SIZE + BATCH_SIZE) with (S k * BATCH_SIZE) by lia.
      rewrite Nat.div_mul by done. f_equal; [do 2 f_equal; lia|].
      f_equal. apply imap_ext. intros j b _. simpl. do 2 f_equal. lia.
    + simpl. rewrite drop_ge by lia. by rewrite app_nil_r.
Qed.

Lemma all_results_fetch :
  all_results (fetch post ids) =
  concat (imap (λ j batch, series_of (post (S j) batch))
            (chunks_aux (length ids) ids)).
Proof.
  unfold fetch, range.
  pose proof (all_results_foldl_fetch (length ids) 0
                {| all_results := []; trace := [] |}) as H.
  simpl in H. rewrite drop_0 in H. apply H. lia.
Qed.

Lemma submitted_fetch :
  submitted (trace (fetch post ids)) = chunks_aux (length ids) ids.
Proof. by rewrite trace_fetch, submitted_intersperse. Qed.
End FetchResults.

Lemma lookup_chunks_aux_Some fuel l k :
  k < fuel → k * BATCH_SIZE < length l →
  chunks_aux fuel l !! k = Some (take BATCH_SIZE (drop (k * BATCH_SIZE) l)).
Proof.
  revert l k. induction fuel as [|fuel IH]; intros l k Hk Hl; [lia|].
  destruct l as [|x l]; [simpl in Hl; lia|].
  change (chunks_aux (S fuel) (x :: l))
    with (take BATCH_SIZE (x :: l) :: chunks_aux fuel (drop BATCH_SIZE (x :: l))).
  destruct k as [|k]; [done|].
  change (chunks_aux fuel (drop BATCH_SIZE (x :: l)) !! k =
          Some (take BATCH_SIZE (drop (S k * BATCH_SIZE) (x :: l)))).
  rewrite IH
    by (rewrite ?length_drop; unfold BATCH_SIZE in *; simpl in *; lia).
  rewrite drop_drop. reflexivity.
Qed.

Lemma lookup_chunks_aux_None fuel l k :
  length l ≤ k * BATCH_SIZE → chunks_aux fuel l !! k = None.
Proof.
  revert l k. induction fuel as [|fuel IH]; intros l k Hl; [done|].
  destruct l as [|x l]; [done|].
  change (chunks_aux (S fuel) (x :: l))
    with (take BATCH_SIZE (x :: l) :: chunks_aux fuel (drop BATCH_SIZE (x :: l))).
  destruct k as [|k]; [simpl in Hl; lia|].
  change (chunks_aux fuel (drop BATCH_SIZE (x :: l)) !! k = None).
  apply IH. rewrite length_drop. unfold BATCH_SIZE in *. simpl in *. lia.
Qed.

(** X1: the accumulator left by the fetch loop is the concatenation, in
    batch order, of the series returned for the batches whose request
    succeeded, the batch in position k (from 0) being the one the loop
    numbers k+1; a rejected or failed batch adds nothing. *)
Theorem fetch_all_results (post : nat → list string → outcome)
    (ids : list string) :
  all_results (fetch post ids) =
  concat (imap (λ k batch, series_of (post (S k) batch))
            (submitted (trace (fetch post ids)))).
Proof. rewrite submitted_fetch. apply all_results_fetch. Qed.

(** X2: the batch in position k is the slice [ids[50k : 50k+50]]: it exists
    exactly when 50k is below the number of identifiers, and it holds 50
    identifiers unless fewer are left. *)
Theorem fetch_batch_slice (post : nat → list string → outcome)
    (ids : list string) (k : nat) :
  (50 * k < length ids →
   submitted (trace (fetch post ids)) !! k
     = Some (slice ids (50 * k) (50 * k + 50)) ∧
   length (slice ids (50 * k) (50 * k + 50)) = 50 `min` (length ids - 50 * k)) ∧
  (length ids ≤ 50 * k → submitted (trace (fetch post ids)) !! k = None).
Proof.
  rewrite submitted_fetch. split.
  - intros Hk. split.
    + rewrite lookup_chunks_aux_Some by (unfold BATCH_SIZE; lia).
      unfold slice, BATCH_SIZE.
      replace (50 * k + 50 - 50 * k) with 50 by lia.
      by replace (k * 50) with (50 * k) by lia.
    + unfold slice. rewrite length_take, length_drop. lia.
  - intros Hk. apply lookup_chunks_aux_None. unfold BATCH_SIZE. lia.
Qed.

Lemma fetch_batch_slice_witness :
  submitted (trace (fetch failing_post (replicate 120 "OEUS"))) !! 2
    = Some (slice (replicate 120 "OEUS") (50 * 2) (50 * 2 + 50)) ∧
  length (slice (replicate 120 "OEUS") (50 * 2) (50 * 2 + 50))
    = 50 `min` (length (replicate 120 "OEUS") - 50 * 2).
Proof.
  apply (fetch_batch_slice failing_post (replicate 120 "OEUS") 2).
  vm_compute. lia.
Defined.

(** ** How the reconciliation loops compose *)

Lemma collect_fmap {A B C} (f : B → result C) (g : A → B) l :
  collect f (g <$> l) = collect (f ∘ g) l.
Proof.
  induction l as [|x l IH]; [done|].
  by rewrite fmap_cons, !collect_cons, IH.
Qed.

Lemma collect_ext {A B} (f g : A → result B) l :
  (∀ x, f x = g x) → collect f l = collect g l.
Proof.
  intros Hfg. induction l as [|x l IH]; [done|].
  by rewrite !collect_cons, Hfg, IH.
Qed.

Lemma collect_length {A B} (f : A → result B) l ys :
  collect f l = Ok ys → length ys = length l.
Proof. intros H%collect_Ok. symmetry. by eapply Forall2_length. Qed.

Lemma annual_idemp points : annual (annual points) = annual points.
Proof.
  induction points as [|p points IH]; [done|].
  rewrite annual_cons. destruct (decide (period p = "A01")) as [Hp|Hp]; [|done].
  by rewrite annual_cons, decide_True, IH.
Qed.

Section ReconcileMore.
Context {pyfloat : Type}.
Variable float : string → option pyfloat.

Lemma reconcile_Ok_collect md results out :
  reconcile float md results = Ok out →
  ∃ rowss, collect (series_rows float md) results = Ok rowss ∧
    out = concat rowss.
Proof.
  rewrite reconcile_collect. intros (rowss & Hc & [= <-])%bind_Ok_inv.
  by exists rowss.
Qed.

Lemma series_rows_only_annual md s :
  series_rows float md (only_annual s) = series_rows float md s.
Proof. unfold series_rows, only_annual. simpl. by rewrite annual_idemp. Qed.

Lemma series_rows_length md s rows :
  series_rows float md s = Ok rows →
  length rows = match find_metadata md (seriesID s) with
                | Some _ => length (annual (data s))
                | None => 0
                end.
Proof.
  unfold series_rows. destruct (find_metadata md (seriesID s)).
  - apply collect_length.
  - by intros [= <-].
Qed.

Lemma collect_series_rows_length md results rowss :
  collect (series_rows float md) results = Ok rowss →
  length (concat rowss) = selected_count md results.
Proof.
  revert rowss. induction results as [|s results IH]; intros rowss.
  - by intros [= <-].
  - rewrite collect_cons. intros (rows & Hrows & H)%bind_Ok_inv.
    apply bind_Ok_inv in H as (rowss' & Hrowss & [= <-]).
    rewrite concat_cons, length_app, (IH _ Hrowss).
    rewrite (series_rows_length _ _ _ Hrows). reflexivity.
Qed.

Lemma find_metadata_Some md sid m :
  find_metadata md sid = Some m → m ∈ md ∧ series_id m = sid.
Proof.
  unfold find_metadata. destruct (list_find _ md) as [[i m']|] eqn:Hf; [|done].
  intros [= <-]. apply list_find_Some in Hf as (Hi & Hm & _).
  split; [by eapply list_elem_of_lookup_2 | done].
Qed.

End ReconcileMore.

Lemma elem_of_generated_metadata G O D m :
  m ∈ series_metadata (generate G O D) ↔
  ∃ g o d, g ∈ G ∧ o ∈ O ∧ d ∈ D ∧ m = metadata_of (g, o, d).
Proof.
  rewrite generate_series_metadata, list_elem_of_fmap. split.
  - intros ([[g o] d] & -> & (Hg & Ho & Hd)%elem_of_product). by exists g, o, d.
  - intros (g & o & d & Hg & Ho & Hd & ->). exists (g, o, d).
    split; [done | by apply elem_of_product].
Qed.

(** X3: reconciling two result lists one after the other is reconciling
    their concatenation: the records of the first come first, and an
    exception in the first list is raised before the second is looked at. *)
Theorem reconcile_app {pyfloat} (float : string → option pyfloat)
    (md : list Metadata) (results1 results2 : list Series) :
  reconcile float md (results1 ++ results2) =
  rows1 ← reconcile float md results1;
  rows2 ← reconcile float md results2;
  Ok (rows1 ++ rows2).
Proof.
  rewrite !reconcile_collect, collect_app.
  destruct (collect _ results1) as [rs1|e]; [rewrite !bind_Ok | done].
  destruct (collect _ results2) as [rs2|e]; [rewrite !bind_Ok | done].
  by rewrite concat_app.
Qed.

(** X4: observations whose period is not "A01" play no part: dropping them
    from every returned series leaves the outcome of the reconciliation
    unchanged, so their values are never read. *)
Theorem reconcile_only_annual {pyfloat} (float : string → option pyfloat)
    (md : list Metadata) (results : list Series) :
  reconcile float md (only_annual <$> results) = reconcile float md results.
Proof.
  rewrite !reconcile_collect, collect_fmap.
  rewrite (collect_ext _ (series_rows float md)); [done|].
  intros s. apply series_rows_only_annual.
Qed.

(** X5: when the reconciliation returns, the number of flat records is the
    number of "A01" observations of the returned series that have matching
    metadata. *)
Theorem reconcile_length {pyfloat} (float : string → option pyfloat)
    (md : list Metadata) (results : list Series)
    (out : list (FlatRecord pyfloat)) :
  reconcile float md results = Ok out →
  length out = selected_count md results.
Proof.
  intros (rowss & Hc & ->)%(reconcile_Ok_collect float).
  by apply (collect_series_rows_length float).
Qed.

Lemma reconcile_length_witness :
  length [ {| row_series_id := "OEUS0600000011-000004";
              row_state_code := "06";
              row_occupation_code := "11-0000";
              row_datatype_code := "04";
              row_year := "2023";
              row_value := @None N |} ]
  = selected_count sample_metadata [sentinel_series; unknown_series].
Proof.
  apply (reconcile_length float_of_digits sample_metadata
           [sentinel_series; unknown_series]).
  vm_compute. reflexivity.
Defined.

(** X6: the exception of a reconciliation is the one for the first value, in
    the order of the results and of their observations, that is neither "-"
    nor accepted by [float]: once the records before it have been
    reconciled and the selected observations before it read, the run stops
    there, whatever follows. *)
Theorem reconcile_first_error {pyfloat} (float : string → option pyfloat)
    (md : list Metadata) (pre post : list Series) (s : Series) (m : Metadata)
    (good rest : list DataPoint) (bad : DataPoint)
    (rows : list (FlatRecord pyfloat)) :
  reconcile float md pre = Ok rows →
  find_metadata md (seriesID s) = Some m →
  annual (data s) = good ++ bad :: rest →
  (∀ p, p ∈ good → value p = "-" ∨ is_Some (float (value p))) →
  value bad ≠ "-" → float (value bad) = None →
  reconcile float md (pre ++ s :: post) = Raise (ValueError (value bad)).
Proof.
  intros (rowss & Hpre & _)%(reconcile_Ok_collect float) Hm Hdata Hgood Hne Hbad.
  rewrite reconcile_collect, collect_app, Hpre, bind_Ok, collect_cons.
  rewrite (series_rows_Some _ _ _ _ Hm), Hdata, collect_app.
  destruct (collect_total (point_row float (seriesID s) m) good) as [rs ->].
  { intros p Hp. destruct (Hgood p Hp) as [Hv|[x Hx]].
    - eexists. apply point_row_Ok. rewrite Hv. apply parse_value_sentinel.
    - destruct (decide (value p = "-")) as [Hv|Hv].
      + eexists. apply point_row_Ok. rewrite Hv. apply parse_value_sentinel.
      + eexists. apply point_row_Ok. by apply parse_value_number. }
  rewrite bind_Ok, collect_cons.
  rewrite (point_row_Raise _ _ _ _ (ValueError (value bad))); [done|].
  unfold parse_value. by rewrite decide_True, Hbad.
Qed.

Lemma reconcile_first_error_witness :
  reconcile float_of_digits sample_metadata
    ([sentinel_series] ++ malformed_series :: [two_annual_series])
  = Raise (ValueError (value {| period := "A01"; year := "2023";
                                value := "N/A" |})).
Proof.
  apply (reconcile_first_error float_of_digits sample_metadata
           [sentinel_series] [two_annual_series] malformed_series
           {| series_id := "OEUS0600000011-000013"; state_code := "06";
              occupation_code := "11-0000"; datatype_code := "13" |}
           [] [] {| period := "A01"; year := "2023"; value := "N/A" |}
           [ {| row_series_id := "OEUS0600000011-000004";
                row_state_code := "06";
                row_occupation_code := "11-0000";
                row_datatype_code := "04";
                row_year := "2023";
                row_value := None |} ]).
  - vm_compute. reflexivity.
  - vm_compute. reflexivity.
  - reflexivity.
  - intros p Hp. by apply elem_of_nil in Hp.
  - discriminate.
  - reflexivity.
Defined.

Lemma reconcile_elem_of_generated {pyfloat} (float : string → option pyfloat)
    G O D results (out : list (FlatRecord pyfloat)) row :
  reconcile float (series_metadata (generate G O D)) results = Ok out →
  row ∈ out →
  row_state_code row ∈ G ∧
  row_occupation_code row ∈ O ∧
  row_datatype_code row ∈ D ∧
  row_series_id row =
    make_series_id (row_state_code row) (row_occupation_code row)
      (row_datatype_code row).
Proof.
  intros Hout Hrow.
  apply (reconcile_elem_of _ _ _ _ _ Hout) in Hrow
    as (s & m & p & _ & Hm & _ & _ & [_ ->]%point_row_inv).
  apply find_metadata_Some in Hm as [Hm Hid].
  apply elem_of_generated_metadata in Hm as (g & o & d & Hg & Ho & Hd & ->).
  simpl in *. by rewrite <- Hid.
Qed.

(** X7: with the metadata the generator made, every flat record carries a
    geography, an occupation and a measure-type code of the input lists,
    and its identifier is the concatenation
    "OEUS" + geography + "000000" + occupation + measure type of its own
    three codes. *)
Theorem reconcile_rows_generated {pyfloat} (float : string → option pyfloat)
    (G O D : list string) (results : list Series)
    (out : list (FlatRecord pyfloat)) (row : FlatRecord pyfloat) :
  reconcile float (series_metadata (generate G O D)) results = Ok out →
  row ∈ out →
  row_state_code row ∈ G ∧
  row_occupation_code row ∈ O ∧
  row_datatype_code row ∈ D ∧
  row_series_id row =
    "OEUS" +:+ row_state_code row +:+ "000000" +:+ row_occupation_code row
      +:+ row_datatype_code row.
Proof. apply reconcile_elem_of_generated. Qed.

Lemma reconcile_rows_generated_witness :
  "06" ∈ ["06"] ∧ "1" ∈ colliding_occupations ∧ "13" ∈ colliding_datatypes ∧
  "OEUS06000000113" = "OEUS" +:+ "06" +:+ "000000" +:+ "1" +:+ "13".
Proof.
  apply (reconcile_rows_generated float_of_digits
           ["06"] colliding_occupations colliding_datatypes [colliding_series]
           [ {| row_series_id := "OEUS06000000113";
                row_state_code := "06";
                row_occupation_code := "1";
                row_datatype_code := "13";
                row_year := "2023";
                row_value := Some 70000%N |} ]
           {| row_series_id := "OEUS06000000113";
              row_state_code := "06";
              row_occupation_code := "1";
              row_datatype_code := "13";
              row_year := "2023";
              row_value := Some 70000%N |}).
  - vm_compute. reflexivity.
  - left.
Defined.

(** ** Generated identifiers and their metadata *)

(** X8: the identifiers generated are exactly the concatenations
    "OEUS" + geography + "000000" + occupation + measure type over the
    three input lists: nothing else is generated and no combination is
    left out. *)
Theorem generate_ids_elem_of (G O D : list string) (sid : string) :
  sid ∈ series_ids (generate G O D) ↔
  ∃ g o d, g ∈ G ∧ o ∈ O ∧ d ∈ D ∧
    sid = "OEUS" +:+ g +:+ "000000" +:+ o +:+ d.
Proof.
  rewrite generate_series_ids, list_elem_of_fmap. split.
  - intros ([[g o] d] & -> & (Hg & Ho & Hd)%elem_of_product). by exists g, o, d.
  - intros (g & o & d & Hg & Ho & Hd & ->). exists (g, o, d).
    split; [done | by apply elem_of_product].
Qed.

(** X9: when all geography codes have one length and all occupation codes
    have one length, looking up a generated identifier gives back the
    metadata record of the very codes it was built from, whether or not
    the lists repeat a code. *)
Theorem find_metadata_generated (G O D : list string) (g o d : string) :
  (∀ g1 g2, g1 ∈ G → g2 ∈ G → String.length g1 = String.length g2) →
  (∀ o1 o2, o1 ∈ O → o2 ∈ O → String.length o1 = String.length o2) →
  g ∈ G → o ∈ O → d ∈ D →
  find_metadata (series_metadata (generate G O D))
    ("OEUS" +:+ g +:+ "000000" +:+ o +:+ d)
  = Some {| series_id := "OEUS" +:+ g +:+ "000000" +:+ o +:+ d;
            state_code := g; occupation_code := o; datatype_code := d |}.
Proof.
  intros HlenG HlenO Hg Ho Hd.
  destruct (find_metadata _ _) as [m|] eqn:Hm.
  - apply find_metadata_Some in Hm as [Hm Hid].
    apply elem_of_generated_metadata in Hm as (g' & o' & d' & Hg' & Ho' & Hd' & ->).
    simpl in Hid. apply make_series_id_inj in Hid as (-> & -> & ->); auto.
  - exfalso. apply (proj1 (find_metadata_None _ _) Hm (metadata_of (g, o, d)));
      [|done].
    apply elem_of_generated_metadata. by exists g, o, d.
Qed.

Lemma find_metadata_generated_witness :
  find_metadata
    (series_metadata (generate ["06"; "48"] ["11-0000"; "13-0000"] datatype_codes))
    ("OEUS" +:+ "48" +:+ "000000" +:+ "13-0000" +:+ "04")
  = Some {| series_id := "OEUS" +:+ "48" +:+ "000000" +:+ "13-0000" +:+ "04";
            state_code := "48"; occupation_code := "13-0000";
            datatype_code := "04" |}.
Proof.
  apply find_metadata_generated.
  - intros g1 g2 Hg1 Hg2.
    repeat (apply elem_of_cons in Hg1 as [->|Hg1]);
      repeat (apply elem_of_cons in Hg2 as [->|Hg2]);
      try reflexivity; by apply elem_of_nil in Hg1 || by apply elem_of_nil in Hg2.
  - intros o1 o2 Ho1 Ho2.
    repeat (apply elem_of_cons in Ho1 as [->|Ho1]);
      repeat (apply elem_of_cons in Ho2 as [->|Ho2]);
      try reflexivity; by apply elem_of_nil in Ho1 || by apply elem_of_nil in Ho2.
  - apply (bool_decide_unpack _). vm_compute. exact I.
  - apply (bool_decide_unpack _). vm_compute. exact I.
  - apply (bool_decide_unpack _). vm_compute. exact I.
Defined.

(** ** The outcomes of a run *)

Lemma concat_imap_nil {A B} (f : nat → A → list B) (l : list A) :
  (∀ i x, f i x = []) → concat (imap f l) = [].
Proof.
  intros Hf. revert f Hf. induction l as [|x l IH]; intros f Hf; [done|].
  rewrite imap_cons, concat_cons, Hf, IH; [done|]. intros i y. apply Hf.
Qed.

Lemma product_nil_l {A B C} (ys : list B) (zs : list C) :
  product (@nil A) ys zs = [].
Proof. reflexivity. Qed.

Lemma product_nil_m {A B C} (xs : list A) (zs : list C) :
  product xs (@nil B) zs = [].
Proof.
  apply nil_length_inv. rewrite length_product. simpl. lia.
Qed.

Section RunOutcomes.
Context {pyfloat : Type}.
Variable float : string → option pyfloat.
Variable codes : Codes.

Lemma process_no_rows md results :
  reconcile float md results = Ok [] →
  process float codes md results = Raise (KeyError "state_code").
Proof. intros Hr. unfold process. by rewrite Hr. Qed.

Lemma process_reconcile_Raise md results e :
  reconcile float md results = Raise e →
  process float codes md results = Raise e.
Proof. intros Hr. unfold process. by rewrite Hr. Qed.

End RunOutcomes.

(** X10: after the batching stage a run raises in two ways only: KeyError
    for the column "state_code", exactly when the reconciliation produced
    no flat record at all, and the ValueError of a value that is neither
    "-" nor a number, raised by the reconciliation itself. *)
Theorem process_Raise_iff {pyfloat} (float : string → option pyfloat)
    (codes : Codes) (md : list Metadata) (results : list Series) (e : exn) :
  process float codes md results = Raise e ↔
  (reconcile float md results = Ok [] ∧ e = KeyError "state_code") ∨
  (reconcile float md results = Raise e ∧ ∃ v, e = ValueError v).
Proof.
  split.
  - intros Hp. destruct (reconcile float md results) as [rows|e'] eqn:Hr.
    + destruct rows as [|r rs].
      * rewrite (process_no_rows _ _ _ _ Hr) in Hp. left. by injection Hp as <-.
      * by rewrite (process_rows _ _ _ _ _ Hr) in Hp.
    + rewrite (process_reconcile_Raise _ _ _ _ _ Hr) in Hp. injection Hp as <-.
      right. split; [done|].
      apply reconcile_Raise in Hr as (s & m & p & _ & _ & _ & _ & _ & _ & ->).
      by eexists.
  - intros [[Hr ->]|[Hr _]].
    + by apply process_no_rows.
    + by apply process_reconcile_Raise.
Qed.

(** X11: when the list of state codes or the list of occupation codes is
    empty, no identifier is generated, nothing is posted and no delay is
    observed, and the run ends with KeyError for the column "state_code". *)
Theorem main_empty_codes {pyfloat} (float : string → option pyfloat)
    (codes : Codes) (G O : list string) (post : nat → list string → outcome) :
  G = [] ∨ O = [] →
  series_ids (generate G O datatype_codes) = [] ∧
  trace (fetch post (series_ids (generate G O datatype_codes))) = [] ∧
  main float codes G O post = Raise (KeyError "state_code").
Proof.
  intros HGO.
  assert (product G O datatype_codes = []) as Hp.
  { destruct HGO as [-> | ->]; [apply product_nil_l | apply product_nil_m]. }
  unfold main. rewrite generate_series_ids, generate_series_metadata, Hp.
  done.
Qed.

Lemma main_empty_codes_witness :
  series_ids (generate ["06"] [] datatype_codes) = [] ∧
  trace (fetch sample_post (series_ids (generate ["06"] [] datatype_codes)))
    = [] ∧
  main float_of_digits sample_codes ["06"] [] sample_post
    = Raise (KeyError "state_code").
Proof.
  apply (main_empty_codes float_of_digits sample_codes ["06"] [] sample_post).
  by right.
Defined.

(** X12: when no request brings back a series (each one fails, is rejected
    or returns none), the accumulator stays empty and the run ends with
    KeyError for the column "state_code", whatever the code lists are. *)
Theorem main_no_series {pyfloat} (float : string → option pyfloat)
    (codes : Codes) (G O : list string) (post : nat → list string → outcome) :
  (∀ batch_num batch, series_of (post batch_num batch) = []) →
  all_results (fetch post (series_ids (generate G O datatype_codes))) = [] ∧
  main float codes G O post = Raise (KeyError "state_code").
Proof.
  intros Hpost.
  assert (all_results (fetch post (series_ids (generate G O datatype_codes)))
          = []) as Hres.
  { rewrite all_results_fetch. apply concat_imap_nil. intros i b. apply Hpost. }
  split; [done|]. unfold main. by rewrite Hres.
Qed.

Lemma main_no_series_witness :
  all_results
    (fetch failing_post (series_ids (generate ["06"] ["11-0000"] datatype_codes)))
    = [] ∧
  main float_of_digits sample_codes ["06"] ["11-0000"] failing_post
    = Raise (KeyError "state_code").
Proof.
  apply (main_no_series float_of_digits sample_codes ["06"] ["11-0000"]
           failing_post).
  reflexivity.
Defined.

(** X13: in a run that writes its file, when every state and occupation
    code of the lists is a key of its name table and the name table of the
    measure types has "04" and "13", every line of the file has nine filled
    cells but possibly the value: the five strings of the record, its value
    cell, and the three names its codes map to. *)
Theorem main_output_names {pyfloat} (float : string → option pyfloat)
    (codes : Codes) (G O : list string) (post : nat → list string → outcome)
    (csv : CsvFile pyfloat) (line : list (cell pyfloat)) :
  main float codes G O post = Ok csv →
  (∀ g, g ∈ G → is_Some (state_names codes !! g)) →
  (∀ o, o ∈ O → is_Some (occupation_names codes !! o)) →
  (∀ d, d ∈ datatype_codes → is_Some (datatype_names codes !! d)) →
  line ∈ lines csv →
  ∃ sid g o d y v gn on dn,
    line = [Str sid; Str g; Str o; Str d; Str y; v; Str gn; Str on; Str dn] ∧
    g ∈ G ∧ o ∈ O ∧ d ∈ datatype_codes ∧
    state_names codes !! g = Some gn ∧
    occupation_names codes !! o = Some on ∧
    datatype_names codes !! d = Some dn.
Proof.
  unfold main. intros Hcsv HG HO HD Hline.
  destruct (process_Ok_inv _ _ _ _ _ Hcsv) as (rows & Hrows & Hne).
  rewrite (process_rows _ _ _ _ _ Hrows Hne) in Hcsv.
  injection Hcsv as <-. simpl in Hline.
  apply list_elem_of_fmap in Hline as (row & -> & Hrow).
  destruct (reconcile_elem_of_generated _ _ _ _ _ _ _ Hrows Hrow)
    as (Hg & Ho & Hd & _).
  destruct (HG _ Hg) as [gn Hgn], (HO _ Ho) as [on Hon], (HD _ Hd) as [dn Hdn].
  exists (row_series_id row), (row_state_code row), (row_occupation_code row),
    (row_datatype_code row), (row_year row),
    (match row_value row with Some x => Num x | None => NaN end), gn, on, dn.
  split_and!; try done.
  unfold csv_line, name_cell. by rewrite Hgn, Hon, Hdn.
Qed.

Lemma main_output_names_witness :
  ∃ sid g o d y v gn on dn,
    [ Str "OEUS0600000011-000004"; Str "06"; Str "11-0000"; Str "04";
      Str "2023"; @NaN N; Str "California"; Str "Management Occupations";
      Str "Annual mean wage" ]
    = [Str sid; Str g; Str o; Str d; Str y; v; Str gn; Str on; Str dn] ∧
    g ∈ ["06"] ∧ o ∈ ["11-0000"] ∧ d ∈ datatype_codes ∧
    state_names sample_codes !! g = Some gn ∧
    occupation_names sample_codes !! o = Some on ∧
    datatype_names sample_codes !! d = Some dn.
Proof.
  apply (main_output_names float_of_digits sample_codes ["06"] ["11-0000"]
           sample_post sample_csv).
  - vm_compute. reflexivity.
  - intros g ->%list_elem_of_singleton. by eexists.
  - intros o ->%list_elem_of_singleton. by eexists.
  - intros d Hd. repeat (apply elem_of_cons in Hd as [->|Hd]);
      [by eexists | by eexists | by apply elem_of_nil in Hd].
  - left.
Defined.

(** X14: a code that has no entry in its name table raises nothing: in the
    file of a run that succeeds, the line of a record starts with its
    identifier and codes, and the name cell of each code without an entry
    is left empty. *)
Theorem main_output_unmapped {pyfloat} (float : string → option pyfloat)
    (codes : Codes) (G O : list string) (post : nat → list string → outcome)
    (csv : CsvFile pyfloat) (line : list (cell pyfloat)) :
  main float codes G O post = Ok csv →
  line ∈ lines csv →
  ∃ g o d,
    line !! 1 = Some (Str g) ∧ line !! 2 = Some (Str o) ∧
    line !! 3 = Some (Str d) ∧
    (state_names codes !! g = None → line !! 6 = Some NaN) ∧
    (occupation_names codes !! o = None → line !! 7 = Some NaN) ∧
    (datatype_names codes !! d = None → line !! 8 = Some NaN).
Proof.
  unfold main. intros Hcsv Hline.
  destruct (process_Ok_inv _ _ _ _ _ Hcsv) as (rows & Hrows & Hne).
  rewrite (process_rows _ _ _ _ _ Hrows Hne) in Hcsv.
  injection Hcsv as <-. simpl in Hline.
  apply list_elem_of_fmap in Hline as (row & -> & Hrow).
  exists (row_state_code row), (row_occupation_code row),
    (row_datatype_code row).
  unfold csv_line, name_cell. split_and!; try done; by intros ->.
Qed.

Lemma main_output_unmapped_witness :
  ∃ g o d,
    lines_unmapped_sample !! 1 = Some (Str g) ∧
    lines_unmapped_sample !! 2 = Some (Str o) ∧
    lines_unmapped_sample !! 3 = Some (Str d) ∧
    (state_names unmapped_codes !! g = None →
     lines_unmapped_sample !! 6 = Some NaN) ∧
    (occupation_names unmapped_codes !! o = None →
     lines_unmapped_sample !! 7 = Some NaN) ∧
    (datatype_names unmapped_codes !! d = None →
     lines_unmapped_sample !! 8 = Some NaN).
Proof.
  apply (main_output_unmapped float_of_digits unmapped_codes ["06"] ["11-0000"]
           sample_post
           {| header := header sample_csv; lines := [lines_unmapped_sample] |}).
  - vm_compute. reflexivity.
  - left.
Defined.

(** X15: a run over g state codes and o occupation codes, with the two
    measure types of the script, posts
    [(g*o*2 + 49) // 50] batches and sleeps once less often (never, when it
    posts nothing). *)
Theorem main_request_count (G O : list string)
    (post : nat → list string → outcome) :
  length (submitted
            (trace (fetch post (series_ids (generate G O datatype_codes)))))
    = (length G * length O * 2 + 49) / 50 ∧
  delays (trace (fetch post (series_ids (generate G O datatype_codes))))
    = pred ((length G * length O * 2 + 49) / 50).
Proof.
  rewrite trace_fetch, submitted_intersperse, delays_intersperse.
  rewrite <- (length_fmap length), length_chunks_aux.
  rewrite length_chunk_sizes by done.
  rewrite generate_series_ids, length_fmap, length_product.
  unfold BATCH_SIZE. simpl length.
  by replace (length G * length O * 2 + 50 - 1)
    with (length G * length O * 2 + 49) by lia.
Qed.
